(** * nest-push-subscriber: a shallow embedding of [main.py]

    [main.py] relays one smart-camera event to an OpenHAB server:
    [trigger_openhab_if_match] checks two conditions on the decoded event
    and, when both hold, calls [requests.post] once;
    [handle_camera_event_pubsub] decodes the Pub/Sub envelope and calls it.

    The embedding keeps the effects of the Python code explicit: every
    [print] and every call of [requests.post] is recorded in a trace, an
    exception is a value of [exn], and the clock and the network are read
    from a [World]. *)

From stdpp Require Import gmap strings list.
From Stdlib Require Import ZArith Lia.

Set Warnings "-register-all".

Local Open Scope Z_scope.

(* ===================================================================== *)
(** ** Python values *)
(* ===================================================================== *)

(** What [json.loads] can return.  A Python [dict] with string keys is a
    [gmap string json]; [None] is [JNull].  Strings are Rocq strings (the
    UTF-8 bytes of the Python text); a float is kept as its literal, no
    arithmetic is ever done on one. *)
Inductive json : Type :=
| JNull
| JBool (b : bool)
| JInt (n : Z)
| JFloat (lit : string)
| JStr (s : string)
| JArr (items : list json)
| JObj (fields : gmap string json).

(** A [requests.Response], as far as [main.py] looks at it. *)
Record Response : Type := mkResponse {
  status_code : Z;
  text : string
}.

(** Exceptions.  [HTTPError] and [RequestError] are the subclasses of
    [requests.exceptions.RequestException]; [HTTPError] is what
    [raise_for_status] raises and carries its response, [RequestError]
    stands for the other subclasses ([ConnectionError], [Timeout],
    [TooManyRedirects], ...), whose [response] attribute may be [None].
    [OtherError] is any other subclass of [Exception].  [BaseError] is a
    [BaseException] that is not an [Exception]: [KeyboardInterrupt],
    [SystemExit], [GeneratorExit]. *)
Inductive exn : Type :=
| AttributeError (what : string)
| TypeError (what : string)
| KeyError (key : string)
| HTTPError (response : Response)
| RequestError (cls : string) (response : option Response)
| OtherError (cls : string) (msg : string)
| BaseError (cls : string).

(** What [except Exception] catches. *)
Definition is_Exception (e : exn) : bool :=
  match e with
  | BaseError _ => false
  | _ => true
  end.

Definition is_RequestException (e : exn) : bool :=
  match e with
  | HTTPError _ | RequestError _ _ => true
  | _ => false
  end.

(** [e.response] guarded by [hasattr(e, 'response') and e.response is not None]. *)
Definition exn_response (e : exn) : option Response :=
  match e with
  | HTTPError r => Some r
  | RequestError _ r => r
  | _ => None
  end.

(** [obj.get(key, default)]: only a [dict] has the method. *)
Definition py_get (obj : json) (key : string) (default : json) : exn + json :=
  match obj with
  | JObj d => inr (match d !! key with Some v => v | None => default end)
  | _ => inl (AttributeError "get")
  end.

(** [obj[key]] with a string key. *)
Definition py_getitem (obj : json) (key : string) : exn + json :=
  match obj with
  | JObj d => match d !! key with Some v => inr v | None => inl (KeyError key) end
  | JArr _ => inl (TypeError "list indices must be integers or slices, not str")
  | JStr _ => inl (TypeError "string indices must be integers, not str")
  | _ => inl (TypeError "object is not subscriptable")
  end.

(** [value != s] for a string [s]: equal only to the same string. *)
Definition py_ne_str (value : json) (s : string) : bool :=
  match value with
  | JStr t => negb (String.eqb t s)
  | _ => true
  end.

(** [needle in haystack] on two strings: substring test. *)
Fixpoint str_contains (needle haystack : string) : bool :=
  String.prefix needle haystack
  || match haystack with
     | EmptyString => false
     | String _ rest => str_contains needle rest
     end.

(** [s in container] for a string [s]: key of a dict, element of a list,
    substring of a string; anything else is not iterable. *)
Definition py_in (s : string) (container : json) : exn + bool :=
  match container with
  | JObj d => inr (bool_decide (is_Some (d !! s)))
  | JArr items =>
      inr (existsb (fun x => match x with JStr t => String.eqb t s | _ => false end) items)
  | JStr t => inr (str_contains s t)
  | _ => inl (TypeError "argument is not iterable")
  end.

(** Truth value of an optional string ([None] and [''] are falsy). *)
Definition str_truthy (s : option string) : bool :=
  match s with
  | None => false
  | Some t => negb (String.eqb t "")
  end.

(** A [dict] of strings built by a literal and item assignment, in
    insertion order. *)
Definition sdict : Type := list (string * string).

Fixpoint sdict_set (d : sdict) (key value : string) : sdict :=
  match d with
  | [] => [(key, value)]
  | (k, v) :: rest =>
      if String.eqb k key then (k, value) :: rest else (k, v) :: sdict_set rest key value
  end.

Fixpoint sdict_get (d : sdict) (key : string) : option string :=
  match d with
  | [] => None
  | (k, v) :: rest => if String.eqb k key then Some v else sdict_get rest key
  end.

(* ===================================================================== *)
(** ** [datetime.now(timezone.utc).isoformat()] *)
(* ===================================================================== *)

(** An aware [datetime] whose [tzinfo] is [timezone.utc]. *)
Record datetime : Type := mkDatetime {
  year : Z; month : Z; day : Z;
  hour : Z; minute : Z; second : Z;
  microsecond : Z
}.

Definition digit_char (d : Z) : Ascii.ascii := Ascii.ascii_of_nat (48 + Z.to_nat d).

(** [width] decimal digits of [n], most significant first: Python's
    ["%0<width>d" % n] for [0 <= n < 10 ^ width]. *)
Fixpoint zero_pad (width : nat) (n : Z) : string :=
  match width with
  | O => ""
  | S w => String (digit_char ((n / 10 ^ Z.of_nat w) mod 10)) (zero_pad w n)
  end.

(** [datetime.isoformat()] with the default separator and time
    specification: the fraction is printed only when it is not zero, and
    the offset of [timezone.utc] is [+00:00]. *)
Definition isoformat (t : datetime) : string :=
  zero_pad 4 (year t) +:+ "-" +:+ zero_pad 2 (month t) +:+ "-" +:+ zero_pad 2 (day t)
  +:+ "T"
  +:+ zero_pad 2 (hour t) +:+ ":" +:+ zero_pad 2 (minute t) +:+ ":" +:+ zero_pad 2 (second t)
  +:+ (if Z.eqb (microsecond t) 0 then "" else "." +:+ zero_pad 6 (microsecond t))
  +:+ "+00:00".

(* ===================================================================== *)
(** ** Effects *)
(* ===================================================================== *)

(** The arguments of one [requests.post(url, data=..., headers=..., timeout=...)]. *)
Record Request : Type := mkRequest {
  req_url : string;
  req_data : string;
  req_headers : sdict;
  req_timeout : Z
}.

(** What the code cannot decide: the reading of the clock at the call and
    what [requests.post] does with a request (a response, or an exception). *)
Record World : Type := mkWorld {
  utc_now : datetime;
  requests_post : Request -> exn + Response
}.

(** A piece of a printed line: literal text, [str()] of a value, of a
    number or of an exception. *)
Inductive frag : Type :=
| FLit (s : string)
| FVal (v : json)
| FInt (n : Z)
| FExn (e : exn).

Inductive effect : Type :=
| Print (line : list frag)
| Post (req : Request).

(** A computation reads the world, leaves a trace and ends with a value or
    with an exception. *)
Definition M (A : Type) : Type := World -> list effect * (exn + A).

Definition ret {A} (a : A) : M A := fun _ => ([], inr a).

Definition bind {A B} (m : M A) (k : A -> M B) : M B :=
  fun w =>
    match m w with
    | (t, inl e) => (t, inl e)
    | (t, inr a) => let '(t', r) := k a w in (t ++ t', r)
    end.

Definition raise {A} (e : exn) : M A := fun _ => ([], inl e).

Definition lift {A} (r : exn + A) : M A := fun _ => ([], r).

Definition print (line : list frag) : M unit := fun _ => ([Print line], inr tt).

Definition datetime_now_utc : M datetime := fun w => ([], inr (utc_now w)).

Definition post (req : Request) : M Response :=
  fun w => ([Post req], requests_post w req).

(** [try: body  except <catches> as e: handler e]. *)
Definition try_except {A} (body : M A) (catches : exn -> bool) (handler : exn -> M A) : M A :=
  fun w =>
    match body w with
    | (t, inl e) =>
        if catches e then let '(t', r) := handler e w in (t ++ t', r) else (t, inl e)
    | (t, inr a) => (t, inr a)
    end.

Declare Scope py_scope.
Delimit Scope py_scope with py.
Notation "x <- m ;; k" := (bind m (fun x => k))
  (at level 100, m at next level, right associativity) : py_scope.
Notation "m ;;; k" := (bind m (fun _ => k))
  (at level 100, right associativity) : py_scope.
Local Open Scope py_scope.

(** [Response.raise_for_status()]: an [HTTPError] carrying the response for
    a 4xx or 5xx status, nothing otherwise. *)
Definition raise_for_status (r : Response) : M unit :=
  if Z.leb 400 (status_code r) && Z.ltb (status_code r) 600
  then raise (HTTPError r)
  else ret tt.

(** The trace of a run, its outcome, and the requests posted in a trace. *)
Definition trace_of {A} (r : list effect * (exn + A)) : list effect := fst r.
Definition outcome_of {A} (r : list effect * (exn + A)) : exn + A := snd r.

Fixpoint posts (t : list effect) : list Request :=
  match t with
  | [] => []
  | Post r :: rest => r :: posts rest
  | Print _ :: rest => posts rest
  end.

Fixpoint prints (t : list effect) : list (list frag) :=
  match t with
  | [] => []
  | Print l :: rest => l :: prints rest
  | Post _ :: rest => prints rest
  end.

(* ===================================================================== *)
(** ** [main.py] *)
(* ===================================================================== *)

Definition default_openhab_item : string := "CameraPersonDetected".
Definition default_event_type : string := "sdm.devices.events.CameraPerson.Person".
Definition default_thread_state : string := "STARTED".

(** The [headers] dict of lines 53-62. *)
Definition build_headers (openhab_token : option string) : sdict :=
  let headers :=
    [("Content-Type", "text/plain");
     ("Accept", "application/json");
     ("CF-Access-Client-Id", "");
     ("CF-Access-Client-Secret", "")] in
  if str_truthy openhab_token
  then sdict_set headers "Authorization"
         ("Bearer " +:+ match openhab_token with Some t => t | None => "" end)
  else headers.

(** The [except requests.exceptions.RequestException as e] block, lines 77-82. *)
Definition on_request_exception {A} (e : exn) : M A :=
  print [FLit "Error triggering OpenHAB: "; FExn e] ;;;
  match exn_response e with
  | Some r =>
      print [FLit "Response status: "; FInt (status_code r)] ;;;
      print [FLit "Response body: "; FLit (text r)]
  | None => ret tt
  end ;;;
  raise e.

Definition trigger_openhab_if_match
    (message : json) (openhab_url openhab_item : string)
    (openhab_token : option string) (event_type thread_state : string) : M bool :=
  ets <- lift (py_get message "eventThreadState" JNull) ;;
  if py_ne_str ets thread_state then
    ets' <- lift (py_get message "eventThreadState" JNull) ;;
    print [FLit "Thread state mismatch: "; FVal ets'; FLit " != "; FLit thread_state] ;;;
    ret false
  else
    resource_update <- lift (py_get message "resourceUpdate" (JObj ∅)) ;;
    events <- lift (py_get resource_update "events" (JObj ∅)) ;;
    present <- lift (py_in event_type events) ;;
    if negb present then
      print [FLit "Event type not found: "; FLit event_type] ;;;
      ret false
    else
      try_except
        (current_timestamp <- (now <- datetime_now_utc ;; ret (isoformat now)) ;;
         let item_url := openhab_url +:+ "/rest/items/" +:+ openhab_item in
         let headers := build_headers openhab_token in
         response <- post (mkRequest item_url current_timestamp headers 10) ;;
         raise_for_status response ;;;
         print [FLit "Successfully triggered OpenHAB item "; FLit openhab_item;
                FLit " with timestamp "; FLit current_timestamp] ;;;
         ret true)
        is_RequestException
        on_request_exception.

(** The event, as the Cloud Functions framework hands it over: only its
    [data] attribute is read. *)
Record CloudEvent : Type := mkCloudEvent {
  ce_data : json
}.

(** The three library calls of lines 101-102 that turn the envelope into
    the message: [base64.b64decode], [bytes.decode] and [json.loads].  Each
    returns its result or raises; what they raise on an input they reject
    ([binascii.Error], [TypeError], [UnicodeDecodeError],
    [json.JSONDecodeError]) is a subclass of [Exception]. *)
Class Decoders : Type := {
  b64decode : json -> exn + list Byte.byte;
  bytes_decode : list Byte.byte -> exn + string;
  json_loads : string -> exn + json;
  b64decode_raises : forall data e, b64decode data = inl e -> is_Exception e = true;
  bytes_decode_raises : forall raw e, bytes_decode raw = inl e -> is_Exception e = true;
  json_loads_raises : forall s e, json_loads s = inl e -> is_Exception e = true
}.

Definition sum_bind {A B} (r : exn + A) (k : A -> exn + B) : exn + B :=
  match r with
  | inl e => inl e
  | inr a => k a
  end.

Section Handler.
Context `{Decoders}.

(** Lines 101-102: [json.loads(base64.b64decode(
    cloud_event.data["message"]["data"]).decode())]. *)
Definition decode_message (cloud_event : CloudEvent) : exn + json :=
  sum_bind (py_getitem (ce_data cloud_event) "message") (fun msg =>
  sum_bind (py_getitem msg "data") (fun data =>
  sum_bind (b64decode data) (fun raw =>
  sum_bind (bytes_decode raw) (fun message_data =>
  json_loads message_data)))).

(** Lines 87-119.  Every [Exception] of the [try] block is caught,
    printed and raised again; a [BaseException] that is not one passes
    through the [except Exception] of line 117. *)
Definition handle_camera_event_pubsub (cloud_event : CloudEvent) : M unit :=
  let openhab_url := "https://openhab.local" in
  let openhab_item := "CameraPersonDetected" in
  let openhab_token := Some "" in
  try_except
    (message_json <- lift (decode_message cloud_event) ;;
     success <- trigger_openhab_if_match message_json openhab_url openhab_item
                  openhab_token default_event_type default_thread_state ;;
     if (success : bool)
     then print [FLit "OpenHAB item "; FLit openhab_item; FLit " triggered"]
     else print [FLit "Event did not match criteria"])
    is_Exception
    (fun e => print [FLit "Error processing Pub/Sub message: "; FExn e] ;;; raise e).

End Handler.

(* ===================================================================== *)
(** ** The two match conditions, read off the event *)
(* ===================================================================== *)

(** [eventThreadState] is present and is the expected string. *)
Definition thread_state_is (message : json) (thread_state : string) : bool :=
  match message with
  | JObj d =>
      match d !! "eventThreadState" with
      | Some (JStr s) => String.eqb s thread_state
      | _ => false
      end
  | _ => false
  end.

(** The value found at [resourceUpdate.events], when the message and its
    [resourceUpdate] are mappings that have the fields. *)
Definition events_field (message : json) : option json :=
  match message with
  | JObj d =>
      match d !! "resourceUpdate" with
      | Some (JObj ru) => ru !! "events"
      | _ => None
      end
  | _ => None
  end.

(** The mapping [resourceUpdate.events] of an event, a missing
    [resourceUpdate] or [events] field counting as the empty mapping;
    [None] when the event does not have that shape (a field holds
    something that is not a mapping). *)
Definition resource_update_events (message : json) : option (gmap string json) :=
  match message with
  | JObj d =>
      match d !! "resourceUpdate" with
      | None => Some ∅
      | Some (JObj ru) =>
          match ru !! "events" with
          | None => Some ∅
          | Some (JObj ev) => Some ev
          | Some _ => None
          end
      | Some _ => None
      end
  | _ => None
  end.

(** The expected event type is a key of [resourceUpdate.events]. *)
Definition event_type_is_key (message : json) (event_type : string) : bool :=
  match resource_update_events message with
  | Some ev => bool_decide (is_Some (ev !! event_type))
  | None => false
  end.

(** [resourceUpdate.events] is there and is a list or a string, on which
    Python's [in] is element or substring membership, not key lookup. *)
Definition events_is_sequence (message : json) : bool :=
  match events_field message with
  | Some (JArr _) | Some (JStr _) => true
  | _ => false
  end.

(** Both match conditions. *)
Definition both_match (message : json) (event_type thread_state : string) : bool :=
  thread_state_is message thread_state && event_type_is_key message event_type.

(** A status of the success class, 2xx. *)
Definition success_status (s : Z) : bool := Z.leb 200 s && Z.ltb s 300.

(** The four headers of the dict literal of lines 53-58. *)
Definition fixed_headers : sdict :=
  [("Content-Type", "text/plain");
   ("Accept", "application/json");
   ("CF-Access-Client-Id", "");
   ("CF-Access-Client-Secret", "")].

(* ===================================================================== *)
(** ** Sample events, worlds and envelopes *)
(* ===================================================================== *)

(** [{"eventThreadState": "STARTED", "resourceUpdate": {"events":
    {"sdm.devices.events.CameraPerson.Person": {}}}}] *)
Definition person_event : json :=
  JObj {[ "eventThreadState" := JStr "STARTED";
          "resourceUpdate" :=
            JObj {[ "events" := JObj {[ default_event_type := JObj ∅ ]} ]} ]}.

(** The same event with thread state [ENDED]. *)
Definition ended_event : json :=
  JObj {[ "eventThreadState" := JStr "ENDED";
          "resourceUpdate" :=
            JObj {[ "events" := JObj {[ default_event_type := JObj ∅ ]} ]} ]}.

(** [{"eventThreadState": "STARTED", "resourceUpdate": {"events": {}}}] *)
Definition empty_events_event : json :=
  JObj {[ "eventThreadState" := JStr "STARTED";
          "resourceUpdate" := JObj {[ "events" := JObj ∅ ]} ]}.

(** [{"eventThreadState": "STARTED", "resourceUpdate": {}}] *)
Definition no_events_fields : gmap string json :=
  {[ "eventThreadState" := JStr "STARTED"; "resourceUpdate" := JObj ∅ ]}.

(** [{"eventThreadState": "STARTED"}] *)
Definition no_resource_update_fields : gmap string json :=
  {[ "eventThreadState" := JStr "STARTED" ]}.

(** An event whose [events] is a list holding the event type. *)
Definition list_events_event : json :=
  JObj {[ "eventThreadState" := JStr "STARTED";
          "resourceUpdate" := JObj {[ "events" := JArr [JStr default_event_type] ]} ]}.

Definition sample_now : datetime := mkDatetime 2024 1 15 10 30 45 123456.

(** A server that answers every request with the given status and body. *)
Definition world_answering (status : Z) (body : string) : World :=
  mkWorld sample_now (fun _ => inr (mkResponse status body)).

(** A network on which every request fails with the given exception. *)
Definition world_failing (e : exn) : World :=
  mkWorld sample_now (fun _ => inl e).

Definition double_quote : string := String (Ascii.ascii_of_nat 34) "".

(** The text of [person_event]. *)
Definition person_event_text : string :=
  "{" +:+ double_quote +:+ "eventThreadState" +:+ double_quote +:+ ":"
  +:+ double_quote +:+ "STARTED" +:+ double_quote +:+ ","
  +:+ double_quote +:+ "resourceUpdate" +:+ double_quote +:+ ":{"
  +:+ double_quote +:+ "events" +:+ double_quote +:+ ":{"
  +:+ double_quote +:+ "sdm.devices.events.CameraPerson.Person" +:+ double_quote
  +:+ ":{}}}}".

(** Its base64 encoding. *)
Definition person_event_b64 : string :=
  "eyJldmVudFRocmVhZFN0YXRlIjoiU1RBUlRFRCIsInJlc291cmNlVXBkYXRlIjp7ImV2ZW50cyI6eyJzZG0uZGV2aWNlcy5ldmVudHMuQ2FtZXJhUGVyc29uLlBlcnNvbiI6e319fX0=".

(** Decoders that know one payload, [person_event_b64], and reject every
    other input the way the library rejects a malformed one. *)
Definition one_payload_decoders : Decoders := {|
  b64decode data :=
    match data with
    | JStr s =>
        if String.eqb s person_event_b64
        then inr (String.list_byte_of_string person_event_text)
        else inl (OtherError "binascii.Error" "Invalid base64-encoded string")
    | _ => inl (TypeError "argument should be a bytes-like object or ASCII string")
    end;
  bytes_decode raw := inr (String.string_of_list_byte raw);
  json_loads s :=
    if String.eqb s person_event_text
    then inr person_event
    else inl (OtherError "json.JSONDecodeError" "Expecting value");
  b64decode_raises := ltac:(intros [| | | |s| |] e Heq; simpl in Heq;
                             try (injection Heq as <-; reflexivity);
                             destruct (String.eqb _ _);
                             first [discriminate Heq | injection Heq as <-; reflexivity]);
  bytes_decode_raises := ltac:(intros raw e Heq; discriminate Heq);
  json_loads_raises := ltac:(intros s e Heq; simpl in Heq; destruct (String.eqb _ _);
                          first [discriminate Heq | injection Heq as <-; reflexivity])
|}.

(** [cloud_event.data] of a Pub/Sub delivery carrying [payload]. *)
Definition pubsub_envelope (payload : string) : CloudEvent :=
  mkCloudEvent (JObj {[ "message" := JObj {[ "data" := JStr payload ]} ]}).

(** The request that lines 47-70 build from the arguments and the clock. *)
Definition item_request (openhab_url openhab_item : string) (openhab_token : option string)
    (w : World) : Request :=
  mkRequest (openhab_url +:+ "/rest/items/" +:+ openhab_item) (isoformat (utc_now w))
    (build_headers openhab_token) 10.

(** Lines 37-40 as one value: the result of [event_type in events], or the
    exception raised on the way to it. *)
Definition event_type_in_events (message : json) (event_type : string) : exn + bool :=
  sum_bind (py_get message "resourceUpdate" (JObj ∅)) (fun resource_update =>
  sum_bind (py_get resource_update "events" (JObj ∅)) (fun events =>
  py_in event_type events)).

(** Not a container: [None], a bool or a number. *)
Definition is_scalar (v : json) : bool :=
  match v with
  | JNull | JBool _ | JInt _ | JFloat _ => true
  | _ => false
  end.

Definition is_mapping (v : json) : bool :=
  match v with
  | JObj _ => true
  | _ => false
  end.

(** [person_event] with fields the code never reads. *)
Definition person_event_with_extras : json :=
  JObj {[ "eventThreadState" := JStr "STARTED";
          "timestamp" := JStr "2019-01-01T00:00:01Z";
          "eventId" := JStr "0120ecc7-3b57-4eb4-9941-91609f189fb4";
          "resourceUpdate" :=
            JObj {[ "name" := JStr "enterprises/project-id/devices/device-id";
                    "events" :=
                      JObj {[ default_event_type :=
                                JObj {[ "eventSessionId" := JStr "CjY5Y3VKaTZwR3o4Y19YbTVfMF" ]};
                              "sdm.devices.events.CameraMotion.Motion" := JObj ∅ ]} ]} ]}.

(** [{"eventThreadState": "STARTED", "resourceUpdate": null}] *)
Definition null_resource_update_fields : gmap string json :=
  {[ "eventThreadState" := JStr "STARTED"; "resourceUpdate" := JNull ]}.

(** [{"eventThreadState": "STARTED", "resourceUpdate": {"events": null}}] *)
Definition null_events_event : json :=
  JObj {[ "eventThreadState" := JStr "STARTED";
          "resourceUpdate" := JObj {[ "events" := JNull ]} ]}.

(** An event whose [events] is a string with the event type inside it. *)
Definition string_events_event : json :=
  JObj {[ "eventThreadState" := JStr "STARTED";
          "resourceUpdate" :=
            JObj {[ "events" := JStr ("see " +:+ default_event_type +:+ ".") ]} ]}.

(** Decoders that know one payload, given by its base64 text, the text it
    decodes to and the value [json.loads] returns for that text; every
    other input is rejected as malformed. *)
Definition single_payload_decoders (b64 text : string) (value : json) : Decoders := {|
  b64decode data :=
    match data with
    | JStr s =>
        if String.eqb s b64
        then inr (String.list_byte_of_string text)
        else inl (OtherError "binascii.Error" "Invalid base64-encoded string")
    | _ => inl (TypeError "argument should be a bytes-like object or ASCII string")
    end;
  bytes_decode raw := inr (String.string_of_list_byte raw);
  json_loads s :=
    if String.eqb s text
    then inr value
    else inl (OtherError "json.JSONDecodeError" "Expecting value");
  b64decode_raises := ltac:(intros [| | | |s| |] e Heq; simpl in Heq;
                             try (injection Heq as <-; reflexivity);
                             destruct (String.eqb _ _);
                             first [discriminate Heq | injection Heq as <-; reflexivity]);
  bytes_decode_raises := ltac:(intros raw e Heq; discriminate Heq);
  json_loads_raises := ltac:(intros s e Heq; simpl in Heq; destruct (String.eqb _ _);
                          first [discriminate Heq | injection Heq as <-; reflexivity])
|}.

(** The payload [[]]: valid base64, valid JSON, not an object. *)
Definition empty_list_decoders : Decoders := single_payload_decoders "W10=" "[]" (JArr []).

(** The payload [{"eventThreadState":"ENDED"}]. *)
Definition ended_payload_b64 : string := "eyJldmVudFRocmVhZFN0YXRlIjoiRU5ERUQifQ==".

Definition ended_payload_text : string :=
  "{" +:+ double_quote +:+ "eventThreadState" +:+ double_quote +:+ ":"
  +:+ double_quote +:+ "ENDED" +:+ double_quote +:+ "}".

Definition ended_payload_decoders : Decoders :=
  single_payload_decoders ended_payload_b64 ended_payload_text
    (JObj {[ "eventThreadState" := JStr "ENDED" ]}).

(** A decimal digit, and a string of [n] of them. *)
Definition is_digit (c : Ascii.ascii) : bool :=
  (48 <=? Ascii.nat_of_ascii c)%nat && (Ascii.nat_of_ascii c <=? 57)%nat.

Fixpoint all_digits (s : string) : bool :=
  match s with
  | EmptyString => true
  | String c rest => is_digit c && all_digits rest
  end.

Definition digits (n : nat) (s : string) : Prop :=
  String.length s = n /\ all_digits s = true.

(** [YYYY-MM-DDTHH:MM:SS+00:00], or [YYYY-MM-DDTHH:MM:SS.ffffff+00:00]. *)
Definition iso8601_utc (s : string) : Prop :=
  exists yyyy mm dd hh mi ss frac,
    s = yyyy +:+ "-" +:+ mm +:+ "-" +:+ dd +:+ "T"
        +:+ hh +:+ ":" +:+ mi +:+ ":" +:+ ss +:+ frac +:+ "+00:00"
    /\ digits 4 yyyy /\ digits 2 mm /\ digits 2 dd
    /\ digits 2 hh /\ digits 2 mi /\ digits 2 ss
    /\ (frac = "" \/ exists ffffff, frac = "." +:+ ffffff /\ digits 6 ffffff).

(* ===================================================================== *)
(** ** Runs of [trigger_openhab_if_match] *)
(* ===================================================================== *)

Ltac unfold_run :=
  unfold trigger_openhab_if_match, on_request_exception, raise_for_status,
    try_except, bind, lift, ret, raise, print, post, datetime_now_utc,
    trace_of, outcome_of in *.

Lemma posts_app (t1 t2 : list effect) : posts (t1 ++ t2) = posts t1 ++ posts t2.
Proof.
  induction t1 as [|[line|req] t1 IH]; simpl; [done|done|].
  by rewrite IH.
Qed.

Lemma thread_state_is_get message ts :
  thread_state_is message ts = true ->
  py_get message "eventThreadState" JNull = inr (JStr ts).
Proof.
  destruct message as [| | | | | |d]; simpl; try done.
  destruct (d !! "eventThreadState") as [[| | | |s| |]|]; try done.
  by intros ->%String.eqb_eq.
Qed.

Lemma py_ne_str_same s : py_ne_str (JStr s) s = false.
Proof. simpl. by rewrite String.eqb_refl. Qed.

Lemma thread_state_not_get d ts :
  thread_state_is (JObj d) ts = false ->
  exists v, py_get (JObj d) "eventThreadState" JNull = inr v /\ py_ne_str v ts = true.
Proof.
  simpl. destruct (d !! "eventThreadState") as [v|]; [|by exists JNull].
  exists v. split; [done|]. destruct v; simpl in *; try done.
  by rewrite H.
Qed.

(** On an event of the expected shape, lines 37-40 compute key membership. *)
Lemma event_type_in_events_shaped message et ev :
  resource_update_events message = Some ev ->
  event_type_in_events message et = inr (bool_decide (is_Some (ev !! et))).
Proof.
  unfold event_type_in_events.
  destruct message as [| | | | | |d]; simpl; try done.
  destruct (d !! "resourceUpdate") as [[| | | | | |ru]|]; simpl; try done.
  - destruct (ru !! "events") as [[| | | | | |ev']|]; simpl; try done.
    + by intros [= ->].
    + by intros [= <-].
  - by intros [= <-].
Qed.

Lemma event_type_is_key_in_events message et :
  event_type_is_key message et = true -> event_type_in_events message et = inr true.
Proof.
  unfold event_type_is_key.
  destruct (resource_update_events message) as [ev|] eqn:Hev; [|done].
  intros Hk. by rewrite (event_type_in_events_shaped _ _ _ Hev), Hk.
Qed.

(** Unless [events] is a list or a string, [event_type in events] can only
    be true through a key. *)
Lemma in_events_true_is_key message et :
  events_is_sequence message = false ->
  event_type_in_events message et = inr true ->
  event_type_is_key message et = true.
Proof.
  unfold events_is_sequence, event_type_in_events, event_type_is_key.
  destruct message as [| | | | | |d]; simpl; try done.
  destruct (d !! "resourceUpdate") as [[| | | | | |ru]|]; simpl; try done.
  destruct (ru !! "events") as [[| | | | | |ev]|]; simpl; try done.
  by intros _ [= <-].
Qed.

(** The requests a run posts, in terms of the two tests of the code. *)
Lemma posts_trigger message url item tok et ts w :
  posts (trace_of (trigger_openhab_if_match message url item tok et ts w)) =
  match py_get message "eventThreadState" JNull with
  | inr v =>
      if py_ne_str v ts then [] else
      match event_type_in_events message et with
      | inr true => [item_request url item tok w]
      | _ => []
      end
  | inl _ => []
  end.
Proof.
  unfold_run. unfold item_request, event_type_in_events, sum_bind.
  destruct (py_get message "eventThreadState" JNull) as [e|v]; simpl; [done|].
  destruct (py_ne_str v ts); simpl.
  { destruct (py_get message "eventThreadState" JNull); done. }
  destruct (py_get message "resourceUpdate" (JObj ∅)) as [e|ru]; simpl; [done|].
  destruct (py_get ru "events" (JObj ∅)) as [e|ev]; simpl; [done|].
  destruct (py_in et ev) as [e|[]]; simpl; [done| |done].
  destruct (requests_post w _) as [e|resp]; simpl.
  - destruct (is_RequestException e); simpl; [|done].
    destruct (exn_response e); done.
  - destruct (_ && _); simpl; done.
Qed.

Lemma posts_trigger_cases message url item tok et ts w :
  posts (trace_of (trigger_openhab_if_match message url item tok et ts w)) = [] \/
  posts (trace_of (trigger_openhab_if_match message url item tok et ts w)) =
    [item_request url item tok w].
Proof.
  rewrite posts_trigger.
  destruct (py_get _ _ _); [by left|].
  destruct (py_ne_str _ _); [by left|].
  destruct (event_type_in_events _ _) as [|[]]; auto.
Qed.

(** A run on which the thread state differs. *)
Lemma run_thread_state_differs d url item tok et ts w :
  thread_state_is (JObj d) ts = false ->
  exists v,
    trigger_openhab_if_match (JObj d) url item tok et ts w =
    ([Print [FLit "Thread state mismatch: "; FVal v; FLit " != "; FLit ts]], inr false).
Proof.
  intros (v & Hget & Hne)%thread_state_not_get. exists v.
  unfold_run. rewrite Hget. simpl. by rewrite Hne.
Qed.

(** A run on which the thread state matches and the key is absent. *)
Lemma run_event_type_absent message url item tok et ts w ev :
  thread_state_is message ts = true ->
  resource_update_events message = Some ev ->
  ev !! et = None ->
  trigger_openhab_if_match message url item tok et ts w =
  ([Print [FLit "Event type not found: "; FLit et]], inr false).
Proof.
  intros Hts Hev Het.
  pose proof (event_type_in_events_shaped _ et _ Hev) as Hin.
  rewrite Het in Hin. unfold event_type_in_events, sum_bind in Hin.
  unfold_run. rewrite (thread_state_is_get _ _ Hts). simpl.
  rewrite String.eqb_refl. simpl.
  destruct (py_get message "resourceUpdate" (JObj ∅)) as [e|ru]; simpl in *; [done|].
  destruct (py_get ru "events" (JObj ∅)) as [e|evs]; simpl in *; [done|].
  rewrite Hin. done.
Qed.

(** A run on which both conditions hold: everything after line 44. *)
Lemma run_both_match message url item tok et ts w :
  both_match message et ts = true ->
  trigger_openhab_if_match message url item tok et ts w =
  let req := item_request url item tok w in
  match requests_post w req with
  | inr resp =>
      if Z.leb 400 (status_code resp) && Z.ltb (status_code resp) 600
      then ([Post req;
             Print [FLit "Error triggering OpenHAB: "; FExn (HTTPError resp)];
             Print [FLit "Response status: "; FInt (status_code resp)];
             Print [FLit "Response body: "; FLit (text resp)]],
            inl (HTTPError resp))
      else ([Post req;
             Print [FLit "Successfully triggered OpenHAB item "; FLit item;
                    FLit " with timestamp "; FLit (isoformat (utc_now w))]],
            inr true)
  | inl e =>
      if is_RequestException e
      then (Post req :: Print [FLit "Error triggering OpenHAB: "; FExn e] ::
            match exn_response e with
            | Some r => [Print [FLit "Response status: "; FInt (status_code r)];
                         Print [FLit "Response body: "; FLit (text r)]]
            | None => []
            end,
            inl e)
      else ([Post req], inl e)
  end.
Proof.
  unfold both_match. intros [Hts Hk]%andb_true_iff.
  apply event_type_is_key_in_events in Hk.
  unfold event_type_in_events, sum_bind in Hk.
  unfold_run. rewrite (thread_state_is_get _ _ Hts). simpl.
  rewrite String.eqb_refl. simpl.
  destruct (py_get message "resourceUpdate" (JObj ∅)) as [e|ru]; simpl in *; [done|].
  destruct (py_get ru "events" (JObj ∅)) as [e|evs]; simpl in *; [done|].
  rewrite Hk. simpl. unfold item_request.
  destruct (requests_post w _) as [e|resp]; simpl.
  - destruct (is_RequestException e); simpl; [|done].
    destruct (exn_response e); done.
  - destruct (_ && _); simpl; done.
Qed.

Lemma thread_state_is_of_get message ts v :
  py_get message "eventThreadState" JNull = inr v ->
  py_ne_str v ts = false ->
  thread_state_is message ts = true.
Proof.
  destruct message as [| | | | | |d]; simpl; try done.
  destruct (d !! "eventThreadState") as [v'|]; intros [= <-]; [|done].
  destruct v'; simpl; try done.
  by intros ->%negb_false_iff.
Qed.

(** A run never posts more than once. *)
Lemma posts_at_most_one message url item tok et ts w :
  (length (posts (trace_of (trigger_openhab_if_match message url item tok et ts w))) <= 1)%nat.
Proof.
  destruct (posts_trigger_cases message url item tok et ts w) as [-> | ->]; simpl; lia.
Qed.

(** Whatever the shape of the event, a request is posted only after both
    tests of the code have passed. *)
Lemma posts_only_after_tests message url item tok et ts w :
  posts (trace_of (trigger_openhab_if_match message url item tok et ts w)) <> [] ->
  thread_state_is message ts = true /\ event_type_in_events message et = inr true.
Proof.
  rewrite posts_trigger.
  destruct (py_get message "eventThreadState" JNull) as [e|v] eqn:Hget; [done|].
  destruct (py_ne_str v ts) eqn:Hne; [done|].
  destruct (event_type_in_events message et) as [e|[]]; try done.
  intros _. split; [|done]. by eapply thread_state_is_of_get.
Qed.

Lemma posts_both_match message url item tok et ts w :
  both_match message et ts = true ->
  posts (trace_of (trigger_openhab_if_match message url item tok et ts w)) =
  [item_request url item tok w].
Proof.
  intros Hm. rewrite posts_trigger.
  apply andb_true_iff in Hm as [Hts Hk].
  rewrite (thread_state_is_get _ _ Hts), py_ne_str_same.
  by rewrite (event_type_is_key_in_events _ _ Hk).
Qed.

(** The headers that [build_headers] returns, case by case. *)
Lemma build_headers_cases tok :
  build_headers tok =
  fixed_headers ++
  match tok with
  | Some t => if String.eqb t "" then [] else [("Authorization", "Bearer " +:+ t)]
  | None => []
  end.
Proof.
  unfold build_headers, str_truthy, fixed_headers.
  destruct tok as [t|]; [|done].
  destruct (String.eqb t ""); done.
Qed.

(* ===================================================================== *)
(** ** The match decision and the single POST *)
(* ===================================================================== *)

(** C1, as stated, fails when [events] is a list: line 40 finds the event
    type among its elements and the request is posted, although the event
    type is a key of nothing. *)
Lemma events_list_posts_without_key :
  ~ (posts (trace_of (trigger_openhab_if_match list_events_event "https://openhab.local"
                        default_openhab_item None default_event_type
                        default_thread_state (world_answering 200 "OK"))) <> [] <->
     thread_state_is list_events_event default_thread_state = true
     /\ event_type_is_key list_events_event default_event_type = true).
Proof.
  intros [Hposted _].
  assert (event_type_is_key list_events_event default_event_type = true) as Hkey.
  { apply Hposted. vm_compute. discriminate. }
  vm_compute in Hkey. discriminate.
Qed.

(** C1, amended.  On every invocation whose [resourceUpdate.events] is not
    a list or a string, a request is posted if and only if both match
    conditions hold ([eventThreadState] equals the expected thread state
    and the expected event type is a key of [resourceUpdate.events]); and
    no invocation at all posts more than one request. *)
Theorem post_iff_both_conditions message url item tok et ts w :
  let t := trace_of (trigger_openhab_if_match message url item tok et ts w) in
  (events_is_sequence message = false ->
   (posts t <> [] <->
    thread_state_is message ts = true /\ event_type_is_key message et = true))
  /\ (length (posts t) <= 1)%nat.
Proof.
  intros t. subst t. split; [intros Hseq; split|].
  - intros [Hts Hin]%posts_only_after_tests. split; [done|].
    by apply in_events_true_is_key.
  - intros [Hts Hk]. rewrite posts_both_match; [done|].
    unfold both_match. by rewrite Hts, Hk.
  - apply posts_at_most_one.
Qed.

Lemma post_iff_both_conditions_witness :
  (posts (trace_of (trigger_openhab_if_match person_event "https://openhab.local"
                      default_openhab_item None default_event_type default_thread_state
                      (world_answering 200 "OK"))) <> [] <->
   thread_state_is person_event default_thread_state = true
   /\ event_type_is_key person_event default_event_type = true)
  /\ (length (posts (trace_of (trigger_openhab_if_match person_event
                                 "https://openhab.local" default_openhab_item None
                                 default_event_type default_thread_state
                                 (world_answering 200 "OK")))) <= 1)%nat.
Proof.
  split.
  - apply (proj1 (post_iff_both_conditions person_event "https://openhab.local"
                    default_openhab_item None default_event_type default_thread_state
                    (world_answering 200 "OK"))).
    vm_compute. reflexivity.
  - apply (proj2 (post_iff_both_conditions person_event "https://openhab.local"
                    default_openhab_item None default_event_type default_thread_state
                    (world_answering 200 "OK"))).
Defined.

(** C2, as stated, fails outside the shape of an event.  With the thread
    state matching and the event type a key of nothing: when [events] is
    [None], line 40 raises [TypeError] and the function returns nothing;
    when [events] is a string holding the event type, the request is
    posted. *)
Lemma unshaped_events_not_decided_by_key :
  (thread_state_is null_events_event default_thread_state = true
   /\ event_type_is_key null_events_event default_event_type = false
   /\ trigger_openhab_if_match null_events_event "https://openhab.local"
        default_openhab_item None default_event_type default_thread_state
        (world_answering 200 "OK") =
      ([], inl (TypeError "argument is not iterable")))
  /\ (thread_state_is string_events_event default_thread_state = true
      /\ event_type_is_key string_events_event default_event_type = false
      /\ posts (trace_of (trigger_openhab_if_match string_events_event
                            "https://openhab.local" default_openhab_item None
                            default_event_type default_thread_state
                            (world_answering 200 "OK"))) =
         [mkRequest "https://openhab.local/rest/items/CameraPersonDetected"
            "2024-01-15T10:30:45.123456+00:00" fixed_headers 10]).
Proof. vm_compute. repeat split. Qed.

(** C2, amended.  For every event mapping and expected strings: the
    function returns [False] (and posts nothing) whenever
    [eventThreadState] differs from the expected thread state, whatever
    [resourceUpdate] holds; with [resourceUpdate] and its [events] each
    missing or a mapping, it returns [False] whenever the thread state
    matches and the expected event type is not a key of
    [resourceUpdate.events]; it goes on to the POST when both conditions
    hold; and on an event of that shape
    it goes on to the POST only then. *)
Theorem match_decision (d : gmap string json) url item tok et ts w :
  let message := JObj d in
  let run := trigger_openhab_if_match message url item tok et ts w in
  (thread_state_is message ts = false ->
   outcome_of run = inr false /\ posts (trace_of run) = [])
  /\ (forall ev, thread_state_is message ts = true ->
      resource_update_events message = Some ev -> ev !! et = None ->
      outcome_of run = inr false /\ posts (trace_of run) = [])
  /\ (thread_state_is message ts = true -> event_type_is_key message et = true ->
      exists req, posts (trace_of run) = [req])
  /\ (is_Some (resource_update_events message) -> posts (trace_of run) <> [] ->
      thread_state_is message ts = true /\ event_type_is_key message et = true).
Proof.
  intros message run. subst message run. split; [|split; [|split]].
  - intros Hts.
    destruct (run_thread_state_differs d url item tok et ts w Hts) as [v ->]. done.
  - intros ev Hts Hev Het.
    by rewrite (run_event_type_absent _ url item tok et ts w ev).
  - intros Hts Hk. eexists. apply posts_both_match.
    unfold both_match. by rewrite Hts, Hk.
  - intros [ev Hev] [Hts Hin]%posts_only_after_tests. split; [done|].
    rewrite (event_type_in_events_shaped _ _ _ Hev) in Hin.
    unfold event_type_is_key. rewrite Hev. by injection Hin.
Qed.

Lemma match_decision_witness :
  (outcome_of (trigger_openhab_if_match ended_event "https://openhab.local"
                 default_openhab_item None default_event_type default_thread_state
                 (world_answering 200 "OK")) = inr false)
  /\ (outcome_of (trigger_openhab_if_match empty_events_event "https://openhab.local"
                    default_openhab_item None default_event_type default_thread_state
                    (world_answering 200 "OK")) = inr false)
  /\ (exists req,
        posts (trace_of (trigger_openhab_if_match person_event "https://openhab.local"
                           default_openhab_item None default_event_type
                           default_thread_state (world_answering 200 "OK"))) = [req]).
Proof.
  split; [|split].
  - unfold ended_event.
    refine (proj1 (proj1 (match_decision _ "https://openhab.local" default_openhab_item
                            None default_event_type default_thread_state
                            (world_answering 200 "OK")) _)).
    vm_compute. reflexivity.
  - unfold empty_events_event.
    refine (proj1 (proj1 (proj2 (match_decision _ "https://openhab.local"
                                   default_openhab_item None default_event_type
                                   default_thread_state (world_answering 200 "OK")))
                     ∅ _ _ _)).
    + vm_compute. reflexivity.
    + vm_compute. reflexivity.
    + vm_compute. reflexivity.
  - unfold person_event.
    refine (proj1 (proj2 (proj2 (match_decision _ "https://openhab.local"
                                   default_openhab_item None default_event_type
                                   default_thread_state (world_answering 200 "OK"))))
              _ _).
    + vm_compute. reflexivity.
    + vm_compute. reflexivity.
Defined.

(** C3.  For every event mapping in which [resourceUpdate] is missing, or
    in which [resourceUpdate] is a mapping without [events], nothing is
    raised: the missing field counts as an empty mapping, so that lines
    37-40 find the event type absent, and the function returns [False]
    without posting. *)
Theorem missing_fields_are_empty (d : gmap string json) url item tok et ts w :
  d !! "resourceUpdate" = None
  \/ (exists ru, d !! "resourceUpdate" = Some (JObj ru) /\ ru !! "events" = None) ->
  let run := trigger_openhab_if_match (JObj d) url item tok et ts w in
  event_type_in_events (JObj d) et = inr false
  /\ outcome_of run = inr false
  /\ posts (trace_of run) = [].
Proof.
  intros Hmiss run. subst run.
  assert (resource_update_events (JObj d) = Some ∅) as Hev.
  { simpl. destruct Hmiss as [-> | (ru & -> & ->)]; done. }
  split; [by rewrite (event_type_in_events_shaped _ et _ Hev)|].
  destruct (thread_state_is (JObj d) ts) eqn:Hts.
  - by rewrite (run_event_type_absent _ url item tok et ts w ∅ Hts Hev).
  - destruct (run_thread_state_differs d url item tok et ts w Hts) as [v ->]. done.
Qed.

Lemma missing_fields_are_empty_witness :
  (event_type_in_events (JObj no_resource_update_fields) default_event_type = inr false
   /\ outcome_of (trigger_openhab_if_match (JObj no_resource_update_fields)
                    "https://openhab.local" default_openhab_item None
                    default_event_type default_thread_state
                    (world_answering 200 "OK")) = inr false
   /\ posts (trace_of (trigger_openhab_if_match (JObj no_resource_update_fields)
                         "https://openhab.local" default_openhab_item None
                         default_event_type default_thread_state
                         (world_answering 200 "OK"))) = [])
  /\ (event_type_in_events (JObj no_events_fields) default_event_type = inr false
      /\ outcome_of (trigger_openhab_if_match (JObj no_events_fields)
                       "https://openhab.local" default_openhab_item None
                       default_event_type default_thread_state
                       (world_answering 200 "OK")) = inr false
      /\ posts (trace_of (trigger_openhab_if_match (JObj no_events_fields)
                            "https://openhab.local" default_openhab_item None
                            default_event_type default_thread_state
                            (world_answering 200 "OK"))) = []).
Proof.
  split.
  - apply (missing_fields_are_empty no_resource_update_fields).
    left. vm_compute. reflexivity.
  - apply (missing_fields_are_empty no_events_fields).
    right. exists ∅. split; vm_compute; reflexivity.
Defined.

(* ===================================================================== *)
(** ** The outcome of the POST *)
(* ===================================================================== *)

(** On a matching event, any response whose status is not 4xx or 5xx makes
    the function return [True]. *)
Lemma run_returns_true_unless_error_status message url item tok et ts w resp :
  both_match message et ts = true ->
  requests_post w (item_request url item tok w) = inr resp ->
  ~ (400 <= status_code resp < 600) ->
  trigger_openhab_if_match message url item tok et ts w =
  ([Post (item_request url item tok w);
    Print [FLit "Successfully triggered OpenHAB item "; FLit item;
           FLit " with timestamp "; FLit (isoformat (utc_now w))]],
   inr true).
Proof.
  intros Hm Hpost Hst. rewrite (run_both_match _ _ _ _ _ _ _ Hm). simpl.
  rewrite Hpost.
  destruct (Z.leb_spec 400 (status_code resp)), (Z.ltb_spec (status_code resp) 600);
    simpl; try done.
  lia.
Qed.

(** C4, as stated, fails on a status that is neither a success nor an
    error for [raise_for_status]: with both conditions met and the server
    answering 304, one request is posted, nothing is raised and the
    function returns [True]. *)
Lemma status_304_returns_true :
  both_match person_event default_event_type default_thread_state = true
  /\ requests_post (world_answering 304 "")
       (item_request "https://openhab.local" default_openhab_item None
          (world_answering 304 "")) = inr (mkResponse 304 "")
  /\ success_status 304 = false
  /\ trigger_openhab_if_match person_event "https://openhab.local" default_openhab_item
       None default_event_type default_thread_state (world_answering 304 "") =
     ([Post (mkRequest "https://openhab.local/rest/items/CameraPersonDetected"
               "2024-01-15T10:30:45.123456+00:00" fixed_headers 10);
       Print [FLit "Successfully triggered OpenHAB item "; FLit "CameraPersonDetected";
              FLit " with timestamp "; FLit "2024-01-15T10:30:45.123456+00:00"]],
      inr true).
Proof. vm_compute. repeat split. Qed.

(** C4, amended.  When both match conditions hold and the POST ends in a
    4xx or 5xx status, or [requests.post] raises a [RequestException], the
    function prints the error, followed by the status code and the body
    when the exception carries a response, and raises that same exception:
    one request is posted and no value is returned. *)
Theorem failure_logged_and_reraised message url item tok et ts w :
  both_match message et ts = true ->
  let req := item_request url item tok w in
  let run := trigger_openhab_if_match message url item tok et ts w in
  (forall resp, requests_post w req = inr resp -> 400 <= status_code resp < 600 ->
     outcome_of run = inl (HTTPError resp)
     /\ posts (trace_of run) = [req]
     /\ prints (trace_of run) =
        [[FLit "Error triggering OpenHAB: "; FExn (HTTPError resp)];
         [FLit "Response status: "; FInt (status_code resp)];
         [FLit "Response body: "; FLit (text resp)]])
  /\ (forall e, requests_post w req = inl e -> is_RequestException e = true ->
      outcome_of run = inl e
      /\ posts (trace_of run) = [req]
      /\ prints (trace_of run) =
         [FLit "Error triggering OpenHAB: "; FExn e] ::
         match exn_response e with
         | Some r => [[FLit "Response status: "; FInt (status_code r)];
                      [FLit "Response body: "; FLit (text r)]]
         | None => []
         end).
Proof.
  intros Hm req run. subst req run.
  rewrite (run_both_match _ _ _ _ _ _ _ Hm). simpl. split.
  - intros resp -> [Hlo Hhi].
    apply Z.leb_le in Hlo. apply Z.ltb_lt in Hhi. rewrite Hlo, Hhi. done.
  - intros e -> ->. destruct (exn_response e); done.
Qed.

Lemma failure_logged_and_reraised_witness :
  (outcome_of (trigger_openhab_if_match person_event "https://openhab.local"
                 default_openhab_item None default_event_type default_thread_state
                 (world_answering 500 "Internal Server Error"))
   = inl (HTTPError (mkResponse 500 "Internal Server Error")))
  /\ (outcome_of (trigger_openhab_if_match person_event "https://openhab.local"
                    default_openhab_item None default_event_type default_thread_state
                    (world_failing (RequestError "ConnectionError" None)))
      = inl (RequestError "ConnectionError" None)).
Proof.
  split.
  - refine (proj1 (proj1 (failure_logged_and_reraised person_event
              "https://openhab.local" default_openhab_item None default_event_type
              default_thread_state (world_answering 500 "Internal Server Error") _)
              (mkResponse 500 "Internal Server Error") _ _)).
    + vm_compute. reflexivity.
    + reflexivity.
    + simpl. lia.
  - refine (proj1 (proj2 (failure_logged_and_reraised person_event
              "https://openhab.local" default_openhab_item None default_event_type
              default_thread_state (world_failing (RequestError "ConnectionError" None)) _)
              (RequestError "ConnectionError" None) _ _)).
    + vm_compute. reflexivity.
    + reflexivity.
    + reflexivity.
Defined.

(** C5.  When both match conditions hold and the response to the POST has
    a status in the success range, the function returns [True]. *)
Theorem success_status_returns_true message url item tok et ts w resp :
  both_match message et ts = true ->
  requests_post w (item_request url item tok w) = inr resp ->
  200 <= status_code resp < 300 ->
  outcome_of (trigger_openhab_if_match message url item tok et ts w) = inr true.
Proof.
  intros Hm Hpost Hst.
  rewrite (run_returns_true_unless_error_status _ _ _ _ _ _ _ _ Hm Hpost); [done|lia].
Qed.

Lemma success_status_returns_true_witness :
  outcome_of (trigger_openhab_if_match person_event "https://openhab.local"
                default_openhab_item None default_event_type default_thread_state
                (world_answering 200 "OK")) = inr true.
Proof.
  apply (success_status_returns_true person_event "https://openhab.local"
           default_openhab_item None default_event_type default_thread_state
           (world_answering 200 "OK") (mkResponse 200 "OK")).
  - vm_compute. reflexivity.
  - reflexivity.
  - simpl. lia.
Defined.

(* ===================================================================== *)
(** ** The request *)
(* ===================================================================== *)







(* ===================================================================== *)
(** ** The Pub/Sub handler *)
(* ===================================================================== *)

Lemma py_getitem_raises obj key e :
  py_getitem obj key = inl e -> is_Exception e = true.
Proof.
  destruct obj as [| | | | | |d]; simpl; try by intros [= <-].
  destruct (d !! key); [done|]. by intros [= <-].
Qed.

(** Whatever lines 101-102 raise is an [Exception]. *)
Lemma decode_message_raises `{Decoders} ce e :
  decode_message ce = inl e -> is_Exception e = true.
Proof.
  unfold decode_message, sum_bind.
  destruct (py_getitem (ce_data ce) "message") as [e1|msg] eqn:Hmsg.
  { intros [= <-]. by eapply py_getitem_raises. }
  destruct (py_getitem msg "data") as [e2|data] eqn:Hdata.
  { intros [= <-]. by eapply py_getitem_raises. }
  destruct (b64decode data) as [e3|raw] eqn:Hb64.
  { intros [= <-]. by eapply b64decode_raises. }
  destruct (bytes_decode raw) as [e4|message_data] eqn:Hdec.
  { intros [= <-]. by eapply bytes_decode_raises. }
  apply json_loads_raises.
Qed.

(** The requests the handler posts are those of the one call it makes. *)
Lemma posts_handler `{Decoders} ce w :
  posts (trace_of (handle_camera_event_pubsub ce w)) =
  match decode_message ce with
  | inr message =>
      posts (trace_of (trigger_openhab_if_match message "https://openhab.local"
                         "CameraPersonDetected" (Some "") default_event_type
                         default_thread_state w))
  | inl _ => []
  end.
Proof.
  unfold handle_camera_event_pubsub, try_except, bind, lift, raise, print, trace_of.
  destruct (decode_message ce) as [e|message]; simpl.
  { by destruct (is_Exception e). }
  destruct (trigger_openhab_if_match _ _ _ _ _ _ w) as [t [e|[]]]; simpl.
  - destruct (is_Exception e); simpl; [|done].
    rewrite posts_app. simpl. by rewrite app_nil_r.
  - rewrite posts_app. simpl. by rewrite app_nil_r.
  - rewrite posts_app. simpl. by rewrite app_nil_r.
Qed.

(** A failure of [b64decode] or of [json.loads] is a failure of lines
    101-102. *)
Lemma decode_message_b64_fails `{Decoders} ce msg data e :
  py_getitem (ce_data ce) "message" = inr msg ->
  py_getitem msg "data" = inr data ->
  b64decode data = inl e ->
  decode_message ce = inl e.
Proof.
  intros Hmsg Hdata Hb64. unfold decode_message.
  rewrite Hmsg. simpl. rewrite Hdata. simpl. by rewrite Hb64.
Qed.

Lemma decode_message_json_fails `{Decoders} ce msg data raw message_data e :
  py_getitem (ce_data ce) "message" = inr msg ->
  py_getitem msg "data" = inr data ->
  b64decode data = inr raw ->
  bytes_decode raw = inr message_data ->
  json_loads message_data = inl e ->
  decode_message ce = inl e.
Proof.
  intros Hmsg Hdata Hb64 Hdec Hjson. unfold decode_message.
  rewrite Hmsg. simpl. rewrite Hdata. simpl. rewrite Hb64. simpl.
  by rewrite Hdec.
Qed.

(** C9.  For every envelope on which the decoding of lines 101-102 raises
    (base64 decoding, text decoding or JSON parsing), the handler prints
    the error and raises that same exception; nothing else is done, in
    particular no request is posted. *)
Theorem malformed_envelope_propagates `{Decoders} ce w e :
  decode_message ce = inl e ->
  let run := handle_camera_event_pubsub ce w in
  outcome_of run = inl e
  /\ posts (trace_of run) = []
  /\ trace_of run = [Print [FLit "Error processing Pub/Sub message: "; FExn e]].
Proof.
  intros Hdec run. subst run.
  pose proof (decode_message_raises ce e Hdec) as Hexc.
  unfold handle_camera_event_pubsub, try_except, bind, lift, raise, print,
    trace_of, outcome_of.
  rewrite Hdec. simpl. rewrite Hexc. done.
Qed.

Lemma malformed_envelope_propagates_witness :
  outcome_of (@handle_camera_event_pubsub one_payload_decoders
                (pubsub_envelope "!!!not base64") (world_answering 200 "OK"))
  = inl (OtherError "binascii.Error" "Invalid base64-encoded string")
  /\ posts (trace_of (@handle_camera_event_pubsub one_payload_decoders
                        (pubsub_envelope "!!!not base64") (world_answering 200 "OK")))
     = []
  /\ trace_of (@handle_camera_event_pubsub one_payload_decoders
                 (pubsub_envelope "!!!not base64") (world_answering 200 "OK"))
     = [Print [FLit "Error processing Pub/Sub message: ";
               FExn (OtherError "binascii.Error" "Invalid base64-encoded string")]].
Proof.
  apply (@malformed_envelope_propagates one_payload_decoders).
  vm_compute. reflexivity.
Defined.

(** C10.  A token that is [None] or the empty string counts as no token:
    on a matching event the posted request has no [Authorization] header.
    The Pub/Sub handler passes the empty string, so no request it posts
    ever has one. *)
Theorem falsy_token_omits_authorization :
  (forall message url item tok et ts w,
     tok = None \/ tok = Some "" ->
     both_match message et ts = true ->
     exists req,
       posts (trace_of (trigger_openhab_if_match message url item tok et ts w)) = [req]
       /\ sdict_get (req_headers req) "Authorization" = None)
  /\ (forall (D : Decoders) ce w req,
        In req (posts (trace_of (handle_camera_event_pubsub ce w))) ->
        sdict_get (req_headers req) "Authorization" = None).
Proof.
  split.
  - intros message url item tok et ts w Htok Hm.
    eexists. split; [by apply posts_both_match|].
    simpl. rewrite build_headers_cases. by destruct Htok as [-> | ->].
  - intros D ce w req. rewrite posts_handler.
    destruct (decode_message ce) as [e|message]; [done|].
    destruct (posts_trigger_cases message "https://openhab.local" "CameraPersonDetected"
                (Some "") default_event_type default_thread_state w) as [-> | ->].
    + done.
    + by intros [<- | []].
Qed.

Lemma falsy_token_omits_authorization_witness :
  (exists req,
     posts (trace_of (trigger_openhab_if_match person_event "https://openhab.local"
                        default_openhab_item (Some "") default_event_type
                        default_thread_state (world_answering 200 "OK"))) = [req]
     /\ sdict_get (req_headers req) "Authorization" = None)
  /\ sdict_get
       (req_headers
          (mkRequest "https://openhab.local/rest/items/CameraPersonDetected"
             "2024-01-15T10:30:45.123456+00:00" fixed_headers 10))
       "Authorization" = None.
Proof.
  split.
  - apply (proj1 falsy_token_omits_authorization person_event).
    + right. reflexivity.
    + vm_compute. reflexivity.
  - apply (proj2 falsy_token_omits_authorization one_payload_decoders
             (pubsub_envelope person_event_b64) (world_answering 200 "OK")).
    vm_compute. left. reflexivity.
Defined.

(* ===================================================================== *)
(** ** The shape of the timestamp *)
(* ===================================================================== *)

Lemma string_length_app (s1 s2 : string) :
  String.length (s1 +:+ s2) = (String.length s1 + String.length s2)%nat.
Proof.
  induction s1 as [|c s1 IH]; simpl; [done|].
  by rewrite IH.
Qed.

Lemma zero_pad_length (width : nat) (n : Z) : String.length (zero_pad width n) = width.
Proof.
  induction width as [|width IH]; simpl; [done|].
  by rewrite IH.
Qed.

(** [YYYY-MM-DDTHH:MM:SS+00:00], with [.ffffff] after the seconds when the
    microseconds are not zero. *)
Lemma isoformat_length (t : datetime) :
  String.length (isoformat t) = if Z.eqb (microsecond t) 0 then 25%nat else 32%nat.
Proof.
  unfold isoformat.
  repeat rewrite string_length_app. repeat rewrite zero_pad_length.
  destruct (Z.eqb (microsecond t) 0); [reflexivity|].
  rewrite string_length_app, zero_pad_length. reflexivity.
Qed.

Example isoformat_sample_now : isoformat sample_now = "2024-01-15T10:30:45.123456+00:00".
Proof. reflexivity. Qed.

Example isoformat_whole_second :
  isoformat (mkDatetime 987 6 5 4 3 2 0) = "0987-06-05T04:03:02+00:00".
Proof. reflexivity. Qed.

(* ===================================================================== *)
(** ** The scenarios of the specification, run *)
(* ===================================================================== *)

Example scenario_person_started :
  trigger_openhab_if_match person_event "https://openhab.local" default_openhab_item None
    default_event_type default_thread_state (world_answering 200 "OK") =
  ([Post (mkRequest "https://openhab.local/rest/items/CameraPersonDetected"
            "2024-01-15T10:30:45.123456+00:00" fixed_headers 10);
    Print [FLit "Successfully triggered OpenHAB item "; FLit "CameraPersonDetected";
           FLit " with timestamp "; FLit "2024-01-15T10:30:45.123456+00:00"]],
   inr true).
Proof. vm_compute. reflexivity. Qed.

Example scenario_ended :
  trigger_openhab_if_match ended_event "https://openhab.local" default_openhab_item None
    default_event_type default_thread_state (world_answering 200 "OK") =
  ([Print [FLit "Thread state mismatch: "; FVal (JStr "ENDED"); FLit " != ";
           FLit "STARTED"]],
   inr false).
Proof. vm_compute. reflexivity. Qed.

Example scenario_empty_events :
  trigger_openhab_if_match empty_events_event "https://openhab.local" default_openhab_item
    None default_event_type default_thread_state (world_answering 200 "OK") =
  ([Print [FLit "Event type not found: "; FLit "sdm.devices.events.CameraPerson.Person"]],
   inr false).
Proof. vm_compute. reflexivity. Qed.

(** Outside the shape of an event the tests of the code are Python's: an
    [events] list is searched for the event type as an element, and a
    [resourceUpdate] that is not a mapping has no [get]. *)
Example events_list_is_searched :
  event_type_is_key list_events_event default_event_type = false
  /\ posts (trace_of (trigger_openhab_if_match list_events_event "https://openhab.local"
                        default_openhab_item None default_event_type default_thread_state
                        (world_answering 200 "OK"))) =
     [mkRequest "https://openhab.local/rest/items/CameraPersonDetected"
        "2024-01-15T10:30:45.123456+00:00" fixed_headers 10].
Proof. vm_compute. split; reflexivity. Qed.

Example resource_update_null_raises :
  trigger_openhab_if_match
    (JObj {[ "eventThreadState" := JStr "STARTED"; "resourceUpdate" := JNull ]})
    "https://openhab.local" default_openhab_item None default_event_type
    default_thread_state (world_answering 200 "OK") =
  ([], inl (AttributeError "get")).
Proof. vm_compute. reflexivity. Qed.

Example handler_posts_without_token :
  @handle_camera_event_pubsub one_payload_decoders (pubsub_envelope person_event_b64)
    (world_answering 200 "OK") =
  ([Post (mkRequest "https://openhab.local/rest/items/CameraPersonDetected"
            "2024-01-15T10:30:45.123456+00:00" fixed_headers 10);
    Print [FLit "Successfully triggered OpenHAB item "; FLit "CameraPersonDetected";
           FLit " with timestamp "; FLit "2024-01-15T10:30:45.123456+00:00"];
    Print [FLit "OpenHAB item "; FLit "CameraPersonDetected"; FLit " triggered"]],
   inr tt).
Proof. vm_compute. reflexivity. Qed.

(* ===================================================================== *)
(** ** Further properties of [trigger_openhab_if_match] *)
(* ===================================================================== *)

(** A message that is not a mapping has no [get]: line 32 raises. *)
Lemma run_not_a_mapping message url item tok et ts w :
  is_mapping message = false ->
  trigger_openhab_if_match message url item tok et ts w = ([], inl (AttributeError "get")).
Proof. destruct message; simpl; done. Qed.

(** The whole run, by the outcome of the two tests of the code. *)
Lemma run_by_tests message url item tok et ts w :
  trigger_openhab_if_match message url item tok et ts w =
  match py_get message "eventThreadState" JNull with
  | inl e => ([], inl e)
  | inr v =>
      if py_ne_str v ts
      then ([Print [FLit "Thread state mismatch: "; FVal v; FLit " != "; FLit ts]],
            inr false)
      else
        match event_type_in_events message et with
        | inl e => ([], inl e)
        | inr false => ([Print [FLit "Event type not found: "; FLit et]], inr false)
        | inr true =>
            try_except
              (current_timestamp <- (now <- datetime_now_utc ;; ret (isoformat now)) ;;
               response <- post (mkRequest (url +:+ "/rest/items/" +:+ item)
                                   current_timestamp (build_headers tok) 10) ;;
               raise_for_status response ;;;
               print [FLit "Successfully triggered OpenHAB item "; FLit item;
                      FLit " with timestamp "; FLit current_timestamp] ;;;
               ret true)
              is_RequestException on_request_exception w
        end
  end.
Proof.
  unfold trigger_openhab_if_match, event_type_in_events, sum_bind.
  unfold bind at 1, lift at 1.
  destruct (py_get message "eventThreadState" JNull) as [e|v] eqn:Hget; [done|].
  destruct (py_ne_str v ts).
  { by unfold bind, lift, print, ret. }
  unfold bind at 1, lift at 1.
  destruct (py_get message "resourceUpdate" (JObj ∅)) as [e|ru]; [done|].
  unfold bind at 1, lift at 1.
  destruct (py_get ru "events" (JObj ∅)) as [e|evs]; [done|].
  unfold bind at 1, lift at 1.
  destruct (py_in et evs) as [e|[]]; simpl; try done.
  by destruct (try_except _ _ _ w).
Qed.

(** The guarded block of lines 45-82, run on its own. *)
Lemma run_try_block url item tok w :
  try_except
    (current_timestamp <- (now <- datetime_now_utc ;; ret (isoformat now)) ;;
     response <- post (mkRequest (url +:+ "/rest/items/" +:+ item)
                         current_timestamp (build_headers tok) 10) ;;
     raise_for_status response ;;;
     print [FLit "Successfully triggered OpenHAB item "; FLit item;
            FLit " with timestamp "; FLit current_timestamp] ;;;
     ret true)
    is_RequestException on_request_exception w =
  let req := item_request url item tok w in
  match requests_post w req with
  | inr resp =>
      if Z.leb 400 (status_code resp) && Z.ltb (status_code resp) 600
      then ([Post req;
             Print [FLit "Error triggering OpenHAB: "; FExn (HTTPError resp)];
             Print [FLit "Response status: "; FInt (status_code resp)];
             Print [FLit "Response body: "; FLit (text resp)]],
            inl (HTTPError resp))
      else ([Post req;
             Print [FLit "Successfully triggered OpenHAB item "; FLit item;
                    FLit " with timestamp "; FLit (isoformat (utc_now w))]],
            inr true)
  | inl e =>
      if is_RequestException e
      then (Post req :: Print [FLit "Error triggering OpenHAB: "; FExn e] ::
            match exn_response e with
            | Some r => [Print [FLit "Response status: "; FInt (status_code r)];
                         Print [FLit "Response body: "; FLit (text r)]]
            | None => []
            end,
            inl e)
      else ([Post req], inl e)
  end.
Proof.
  unfold_run. unfold item_request. simpl.
  destruct (requests_post w _) as [e|resp]; simpl.
  - destruct (is_RequestException e); simpl; [|done].
    destruct (exn_response e); done.
  - destruct (_ && _); simpl; done.
Qed.

Lemma py_get_exn obj key default e :
  py_get obj key default = inl e -> e = AttributeError "get".
Proof. destruct obj; simpl; by intros [= <-]. Qed.

Lemma py_in_exn s container e :
  py_in s container = inl e -> e = TypeError "argument is not iterable".
Proof. destruct container; simpl; by intros [= <-]. Qed.

Lemma event_type_in_events_exn message et e :
  event_type_in_events message et = inl e ->
  e = AttributeError "get" \/ e = TypeError "argument is not iterable".
Proof.
  unfold event_type_in_events, sum_bind.
  destruct (py_get message "resourceUpdate" (JObj ∅)) as [e1|ru] eqn:H1.
  { intros [= <-]. left. by eapply py_get_exn. }
  destruct (py_get ru "events" (JObj ∅)) as [e2|evs] eqn:H2.
  { intros [= <-]. left. by eapply py_get_exn. }
  intros Hin. right. by eapply py_in_exn.
Qed.

Lemma posts_map_Print (lines : list (list frag)) : posts (map Print lines) = [].
Proof. induction lines as [|l lines IH]; simpl; done. Qed.

Lemma prefix_spec (needle haystack : string) :
  String.prefix needle haystack = true <-> exists rest, haystack = needle +:+ rest.
Proof.
  revert haystack. induction needle as [|a needle IH]; intros haystack.
  - split; [by exists haystack|by destruct haystack].
  - destruct haystack as [|b haystack].
    + split; [done|]. by intros [rest [=]].
    + change (String.prefix (String a needle) (String b haystack))
        with (if Ascii.ascii_dec a b then String.prefix needle haystack else false).
      destruct (Ascii.ascii_dec a b) as [->|Hne].
      * rewrite IH. split.
        -- intros [rest ->]. by exists rest.
        -- intros [rest [= ->]]. by exists rest.
      * split; [done|]. intros [rest [= ? ?]]. done.
Qed.

Lemma str_contains_nil (needle : string) :
  str_contains needle "" = String.prefix needle "".
Proof. unfold str_contains. apply orb_false_r. Qed.

Lemma str_contains_cons (needle : string) c (haystack : string) :
  str_contains needle (String c haystack) =
  String.prefix needle (String c haystack) || str_contains needle haystack.
Proof. reflexivity. Qed.

(** [str_contains] is the substring test. *)
Lemma str_contains_spec (needle haystack : string) :
  str_contains needle haystack = true <->
  exists before after, haystack = before +:+ needle +:+ after.
Proof.
  induction haystack as [|c haystack IH].
  - rewrite str_contains_nil, prefix_spec. split.
    + intros [rest Hrest]. by exists "", rest.
    + intros (before & after & Heq). destruct before; [by exists after|done].
  - rewrite str_contains_cons, orb_true_iff, prefix_spec, IH. split.
    + intros [[rest Hrest] | (before & after & ->)].
      * by exists "", rest.
      * by exists (String c before), after.
    + intros (before & after & Heq). destruct before as [|b before]; simpl in Heq.
      * left. by exists after.
      * right. injection Heq as -> ->. by exists before, after.
Qed.

(** X1.  Every run has one of three shapes: a rejection, which prints one
    line and returns [False]; an [AttributeError] or [TypeError] raised by
    the tests, with nothing printed or posted; or a POST as the first
    effect, followed by prints only, which never ends in [False]. *)
Theorem run_has_one_of_three_shapes message url item tok et ts w :
  let run := trigger_openhab_if_match message url item tok et ts w in
  (exists line, run = ([Print line], inr false))
  \/ (exists what, run = ([], inl (AttributeError what))
                   \/ run = ([], inl (TypeError what)))
  \/ (exists req lines,
        trace_of run = Post req :: map Print lines /\ outcome_of run <> inr false).
Proof.
  intros run. subst run. rewrite run_by_tests.
  destruct (py_get message "eventThreadState" JNull) as [e|v] eqn:Hget.
  { right. left. apply py_get_exn in Hget as ->. eexists. by left. }
  destruct (py_ne_str v ts); [left; by eexists|].
  destruct (event_type_in_events message et) as [e|[]] eqn:Hin.
  - right. left.
    apply event_type_in_events_exn in Hin as [-> | ->]; eexists; [by left|by right].
  - right. right. rewrite run_try_block. simpl.
    destruct (requests_post w _) as [e|resp].
    + destruct (is_RequestException e).
      * destruct (exn_response e) as [r|].
        -- eexists _, [_; _; _]. by split.
        -- eexists _, [_]. by split.
      * eexists _, []. by split.
    + destruct (_ && _).
      * eexists _, [_; _; _]. by split.
      * eexists _, [_]. by split.
  - left. by eexists.
Qed.

(** X2.  What the return value tells: [True] is returned exactly when a
    request was posted and answered with a status outside 400..599, and
    [False] only when nothing was posted. *)
Theorem return_value_reports_post message url item tok et ts w :
  let run := trigger_openhab_if_match message url item tok et ts w in
  (outcome_of run = inr true <->
   posts (trace_of run) <> []
   /\ exists resp,
        requests_post w (mkRequest (url +:+ "/rest/items/" +:+ item)
                           (isoformat (utc_now w)) (build_headers tok) 10) = inr resp
        /\ ~ (400 <= status_code resp < 600))
  /\ (outcome_of run = inr false -> posts (trace_of run) = []).
Proof.
  intros run. subst run. rewrite run_by_tests.
  destruct (py_get message "eventThreadState" JNull) as [e|v].
  { split; [split|]; [done| |done]. by intros [? _]. }
  destruct (py_ne_str v ts).
  { split; [split|]; [done| |done]. by intros [? _]. }
  destruct (event_type_in_events message et) as [e|[]].
  { split; [split|]; [done| |done]. by intros [? _]. }
  2:{ split; [split|]; [done| |done]. by intros [? _]. }
  rewrite run_try_block. unfold item_request. simpl.
  destruct (requests_post w _) as [e|resp].
  - destruct (is_RequestException e); (split; [split|]; [done| |done]);
      by intros [_ (? & [=] & _)].
  - destruct (Z.leb_spec 400 (status_code resp)), (Z.ltb_spec (status_code resp) 600);
      simpl; (split; [split|]; [| |done]).
    all: try (intros _; split; [done|]; exists resp; split; [done|lia]).
    all: try done.
    intros [_ (resp' & [= <-] & Hst)]. lia.
Qed.

Lemma return_value_reports_post_witness :
  outcome_of (trigger_openhab_if_match empty_events_event "https://openhab.local"
                default_openhab_item None default_event_type default_thread_state
                (world_answering 200 "OK")) = inr false
  /\ posts (trace_of (trigger_openhab_if_match empty_events_event "https://openhab.local"
                        default_openhab_item None default_event_type default_thread_state
                        (world_answering 200 "OK"))) = [].
Proof.
  assert (outcome_of (trigger_openhab_if_match empty_events_event "https://openhab.local"
                        default_openhab_item None default_event_type default_thread_state
                        (world_answering 200 "OK")) = inr false) as Hout.
  { vm_compute. reflexivity. }
  split; [exact Hout|].
  exact (proj2 (return_value_reports_post empty_events_event "https://openhab.local"
                  default_openhab_item None default_event_type default_thread_state
                  (world_answering 200 "OK")) Hout).
Defined.

(** X3.  Nothing of a matching event reaches the outside: two events that
    both meet the two conditions give the same run, effect for effect, in
    the same world. *)
Theorem matching_runs_ignore_payload message1 message2 url item tok et ts w :
  both_match message1 et ts = true ->
  both_match message2 et ts = true ->
  trigger_openhab_if_match message1 url item tok et ts w =
  trigger_openhab_if_match message2 url item tok et ts w.
Proof.
  intros H1 H2.
  by rewrite (run_both_match _ _ _ _ _ _ _ H1), (run_both_match _ _ _ _ _ _ _ H2).
Qed.

Lemma matching_runs_ignore_payload_witness :
  trigger_openhab_if_match person_event "https://openhab.local" default_openhab_item
    None default_event_type default_thread_state (world_answering 200 "OK") =
  trigger_openhab_if_match person_event_with_extras "https://openhab.local"
    default_openhab_item None default_event_type default_thread_state
    (world_answering 200 "OK").
Proof.
  apply matching_runs_ignore_payload.
  - vm_compute. reflexivity.
  - vm_compute. reflexivity.
Defined.

(** X4.  Whatever the message is, a run posts nothing or exactly the one
    request built from the arguments and the clock, with a timeout of 10
    seconds. *)
Theorem only_request_ever_posted message url item tok et ts w :
  let t := trace_of (trigger_openhab_if_match message url item tok et ts w) in
  posts t = []
  \/ posts t = [mkRequest (url +:+ "/rest/items/" +:+ item) (isoformat (utc_now w))
                  (build_headers tok) 10].
Proof. apply posts_trigger_cases. Qed.

(** X5.  Only a [RequestException] is logged by the function: any other
    exception raised by [requests.post] on a matching event leaves the
    trace at the POST and is raised as it is. *)
Theorem other_exception_not_logged message url item tok et ts w e :
  both_match message et ts = true ->
  requests_post w (mkRequest (url +:+ "/rest/items/" +:+ item) (isoformat (utc_now w))
                     (build_headers tok) 10) = inl e ->
  is_RequestException e = false ->
  trigger_openhab_if_match message url item tok et ts w =
  ([Post (mkRequest (url +:+ "/rest/items/" +:+ item) (isoformat (utc_now w))
            (build_headers tok) 10)],
   inl e).
Proof.
  intros Hm Hpost He. rewrite (run_both_match _ _ _ _ _ _ _ Hm).
  unfold item_request. simpl. by rewrite Hpost, He.
Qed.

Lemma other_exception_not_logged_witness :
  trigger_openhab_if_match person_event "https://openhab.local" default_openhab_item
    None default_event_type default_thread_state
    (world_failing (OtherError "MemoryError" "out of memory")) =
  ([Post (mkRequest ("https://openhab.local" +:+ "/rest/items/" +:+ default_openhab_item)
            (isoformat (utc_now (world_failing (OtherError "MemoryError" "out of memory"))))
            (build_headers None) 10)],
   inl (OtherError "MemoryError" "out of memory")).
Proof.
  apply other_exception_not_logged.
  - vm_compute. reflexivity.
  - reflexivity.
  - reflexivity.
Defined.

(** X6.  On a matching event every status outside 400..599, a 3xx or 1xx
    included, counts as success: the run is the POST and the success line,
    which names the item and the very timestamp that was sent, and the
    function returns [True]. *)
Theorem non_error_status_is_success message url item tok et ts w resp :
  both_match message et ts = true ->
  requests_post w (mkRequest (url +:+ "/rest/items/" +:+ item) (isoformat (utc_now w))
                     (build_headers tok) 10) = inr resp ->
  ~ (400 <= status_code resp < 600) ->
  exists body,
    trigger_openhab_if_match message url item tok et ts w =
    ([Post (mkRequest (url +:+ "/rest/items/" +:+ item) body (build_headers tok) 10);
      Print [FLit "Successfully triggered OpenHAB item "; FLit item;
             FLit " with timestamp "; FLit body]],
     inr true).
Proof.
  intros Hm Hpost Hst. exists (isoformat (utc_now w)).
  exact (run_returns_true_unless_error_status _ _ _ _ _ _ _ resp Hm Hpost Hst).
Qed.

Lemma non_error_status_is_success_witness :
  exists body,
    trigger_openhab_if_match person_event "https://openhab.local" default_openhab_item
      None default_event_type default_thread_state (world_answering 302 "") =
    ([Post (mkRequest ("https://openhab.local" +:+ "/rest/items/" +:+ default_openhab_item)
              body (build_headers None) 10);
      Print [FLit "Successfully triggered OpenHAB item "; FLit default_openhab_item;
             FLit " with timestamp "; FLit body]],
     inr true).
Proof.
  apply (non_error_status_is_success person_event "https://openhab.local"
           default_openhab_item None default_event_type default_thread_state
           (world_answering 302 "") (mkResponse 302 "")).
  - vm_compute. reflexivity.
  - reflexivity.
  - simpl. lia.
Defined.

(** The run on a mapping whose thread state differs, with the value it prints. *)
Lemma run_mismatch_line (d : gmap string json) url item tok et ts w :
  thread_state_is (JObj d) ts = false ->
  trigger_openhab_if_match (JObj d) url item tok et ts w =
  ([Print [FLit "Thread state mismatch: ";
           FVal (match d !! "eventThreadState" with Some v => v | None => JNull end);
           FLit " != "; FLit ts]],
   inr false).
Proof.
  intros Hts. destruct (thread_state_not_get d ts Hts) as (v & Hget & Hne).
  rewrite run_by_tests, Hget, Hne. simpl in Hget. by injection Hget as <-.
Qed.

(** X7.  A rejection prints its reason and nothing else: on a thread-state
    mismatch one line showing the value found ([None] when the field is
    missing) and the expected state; on an absent key one line naming the
    event type. *)
Theorem rejection_prints_reason (d : gmap string json) url item tok et ts w :
  (thread_state_is (JObj d) ts = false ->
   trigger_openhab_if_match (JObj d) url item tok et ts w =
   ([Print [FLit "Thread state mismatch: ";
            FVal (match d !! "eventThreadState" with Some v => v | None => JNull end);
            FLit " != "; FLit ts]],
    inr false))
  /\ (forall ev, thread_state_is (JObj d) ts = true ->
      resource_update_events (JObj d) = Some ev -> ev !! et = None ->
      trigger_openhab_if_match (JObj d) url item tok et ts w =
      ([Print [FLit "Event type not found: "; FLit et]], inr false)).
Proof.
  split.
  - apply run_mismatch_line.
  - intros ev Hts Hev Het. by apply (run_event_type_absent _ _ _ _ _ _ _ ev).
Qed.

Lemma rejection_prints_reason_witness :
  trigger_openhab_if_match (JObj ∅) "https://openhab.local" default_openhab_item None
    default_event_type default_thread_state (world_answering 200 "OK") =
  ([Print [FLit "Thread state mismatch: "; FVal JNull; FLit " != ";
           FLit default_thread_state]],
   inr false)
  /\ trigger_openhab_if_match (JObj no_events_fields) "https://openhab.local"
       default_openhab_item None default_event_type default_thread_state
       (world_answering 200 "OK") =
     ([Print [FLit "Event type not found: "; FLit default_event_type]], inr false).
Proof.
  split.
  - refine (eq_trans (proj1 (rejection_prints_reason ∅ "https://openhab.local"
                               default_openhab_item None default_event_type
                               default_thread_state (world_answering 200 "OK")) _) _).
    + reflexivity.
    + vm_compute. reflexivity.
  - apply (proj2 (rejection_prints_reason no_events_fields "https://openhab.local"
                    default_openhab_item None default_event_type default_thread_state
                    (world_answering 200 "OK")) ∅).
    + vm_compute. reflexivity.
    + vm_compute. reflexivity.
    + reflexivity.
Defined.

(** X8.  A [resourceUpdate] that is present but is not a mapping is an
    error only behind a matching thread state: line 38 then raises
    [AttributeError] with nothing printed or posted, while on a mismatch
    the function has returned [False] before looking at it. *)
Theorem resource_update_not_a_mapping (d : gmap string json) v url item tok et ts w :
  d !! "resourceUpdate" = Some v ->
  is_mapping v = false ->
  let run := trigger_openhab_if_match (JObj d) url item tok et ts w in
  (thread_state_is (JObj d) ts = true -> run = ([], inl (AttributeError "get")))
  /\ (thread_state_is (JObj d) ts = false ->
      outcome_of run = inr false /\ posts (trace_of run) = []).
Proof.
  intros Hru Hv run. subst run. split.
  - intros Hts. rewrite run_by_tests, (thread_state_is_get _ _ Hts), py_ne_str_same.
    unfold event_type_in_events. simpl. rewrite Hru. by destruct v.
  - intros Hts.
    destruct (run_thread_state_differs d url item tok et ts w Hts) as [x ->]. done.
Qed.

Lemma resource_update_not_a_mapping_witness :
  trigger_openhab_if_match (JObj null_resource_update_fields) "https://openhab.local"
    default_openhab_item None default_event_type default_thread_state
    (world_answering 200 "OK") = ([], inl (AttributeError "get"))
  /\ (outcome_of (trigger_openhab_if_match (JObj null_resource_update_fields)
                    "https://openhab.local" default_openhab_item None default_event_type
                    "ENDED" (world_answering 200 "OK")) = inr false
      /\ posts (trace_of (trigger_openhab_if_match (JObj null_resource_update_fields)
                            "https://openhab.local" default_openhab_item None
                            default_event_type "ENDED" (world_answering 200 "OK"))) = []).
Proof.
  split.
  - apply (proj1 (resource_update_not_a_mapping null_resource_update_fields JNull
                    "https://openhab.local" default_openhab_item None default_event_type
                    default_thread_state (world_answering 200 "OK")
                    ltac:(vm_compute; reflexivity) eq_refl)).
    vm_compute. reflexivity.
  - apply (proj2 (resource_update_not_a_mapping null_resource_update_fields JNull
                    "https://openhab.local" default_openhab_item None default_event_type
                    "ENDED" (world_answering 200 "OK")
                    ltac:(vm_compute; reflexivity) eq_refl)).
    vm_compute. reflexivity.
Defined.

(** X9.  Behind a matching thread state, an [events] field that holds
    [None], a bool or a number makes line 40 raise [TypeError]: nothing is
    printed, nothing is posted. *)
Theorem scalar_events_raise message v url item tok et ts w :
  thread_state_is message ts = true ->
  events_field message = Some v ->
  is_scalar v = true ->
  trigger_openhab_if_match message url item tok et ts w =
  ([], inl (TypeError "argument is not iterable")).
Proof.
  intros Hts Hev Hv.
  rewrite run_by_tests, (thread_state_is_get _ _ Hts), py_ne_str_same.
  unfold event_type_in_events. unfold events_field in Hev.
  destruct message as [| | | | | |d]; try done. simpl.
  destruct (d !! "resourceUpdate") as [[| | | | | |ru]|]; try done. simpl.
  rewrite Hev. by destruct v.
Qed.

Lemma scalar_events_raise_witness :
  trigger_openhab_if_match null_events_event "https://openhab.local" default_openhab_item
    None default_event_type default_thread_state (world_answering 200 "OK") =
  ([], inl (TypeError "argument is not iterable")).
Proof.
  apply (scalar_events_raise null_events_event JNull).
  - vm_compute. reflexivity.
  - vm_compute. reflexivity.
  - reflexivity.
Defined.

Lemma events_field_in_events message et v :
  events_field message = Some v ->
  event_type_in_events message et = py_in et v.
Proof.
  unfold events_field, event_type_in_events.
  destruct message as [| | | | | |d]; try done. simpl.
  destruct (d !! "resourceUpdate") as [[| | | | | |ru]|]; try done. simpl.
  by intros ->.
Qed.

Lemma posts_nonempty_iff message url item tok et ts w :
  posts (trace_of (trigger_openhab_if_match message url item tok et ts w)) <> [] <->
  thread_state_is message ts = true /\ event_type_in_events message et = inr true.
Proof.
  split; [apply posts_only_after_tests|].
  intros [Hts Hin]. rewrite posts_trigger, (thread_state_is_get _ _ Hts), py_ne_str_same.
  by rewrite Hin.
Qed.

(** X10.  When [events] is a list, line 40 searches it: a request is
    posted if and only if the thread state matches and the event type is
    one of the elements of the list. *)
Theorem events_list_membership message items url item tok et ts w :
  events_field message = Some (JArr items) ->
  posts (trace_of (trigger_openhab_if_match message url item tok et ts w)) <> [] <->
  thread_state_is message ts = true /\ In (JStr et) items.
Proof.
  intros Hev. rewrite posts_nonempty_iff, (events_field_in_events _ _ _ Hev). simpl.
  apply and_iff_compat_l. split.
  - intros [= Hex]. apply existsb_exists in Hex as (x & Hx & Heq).
    destruct x; try done. by apply String.eqb_eq in Heq as ->.
  - intros Hin. f_equal. apply existsb_exists. exists (JStr et).
    split; [done|]. apply String.eqb_refl.
Qed.

Lemma events_list_membership_witness :
  posts (trace_of (trigger_openhab_if_match list_events_event "https://openhab.local"
                     default_openhab_item None default_event_type default_thread_state
                     (world_answering 200 "OK"))) <> [] <->
  thread_state_is list_events_event default_thread_state = true
  /\ In (JStr default_event_type) [JStr default_event_type].
Proof.
  apply (events_list_membership list_events_event [JStr default_event_type]).
  vm_compute. reflexivity.
Defined.

(** X11.  When [events] is a string, line 40 is a substring test: a
    request is posted if and only if the thread state matches and the
    event type occurs somewhere inside that string. *)
Theorem events_string_substring message s url item tok et ts w :
  events_field message = Some (JStr s) ->
  posts (trace_of (trigger_openhab_if_match message url item tok et ts w)) <> [] <->
  thread_state_is message ts = true
  /\ exists before after, s = before +:+ et +:+ after.
Proof.
  intros Hev. rewrite posts_nonempty_iff, (events_field_in_events _ _ _ Hev). simpl.
  apply and_iff_compat_l. rewrite <- str_contains_spec. split.
  - by intros [= ->].
  - by intros ->.
Qed.

Lemma events_string_substring_witness :
  posts (trace_of (trigger_openhab_if_match string_events_event "https://openhab.local"
                     default_openhab_item None default_event_type default_thread_state
                     (world_answering 200 "OK"))) <> [] <->
  thread_state_is string_events_event default_thread_state = true
  /\ exists before after,
       "see " +:+ default_event_type +:+ "." = before +:+ default_event_type +:+ after.
Proof.
  apply (events_string_substring string_events_event
           ("see " +:+ default_event_type +:+ ".")).
  vm_compute. reflexivity.
Defined.

(* ===================================================================== *)
(** ** Further properties of [handle_camera_event_pubsub] *)
(* ===================================================================== *)

(** The whole run of the handler: the run of the one call it makes,
    followed by one line unless that call raised past [except Exception]. *)
Lemma run_handler `{Decoders} ce w :
  handle_camera_event_pubsub ce w =
  match decode_message ce with
  | inl e => ([Print [FLit "Error processing Pub/Sub message: "; FExn e]], inl e)
  | inr message =>
      let run := trigger_openhab_if_match message "https://openhab.local"
                   "CameraPersonDetected" (Some "") default_event_type
                   default_thread_state w in
      match outcome_of run with
      | inl e =>
          if is_Exception e
          then (trace_of run
                  ++ [Print [FLit "Error processing Pub/Sub message: "; FExn e]],
                inl e)
          else (trace_of run, inl e)
      | inr true =>
          (trace_of run ++ [Print [FLit "OpenHAB item "; FLit "CameraPersonDetected";
                                   FLit " triggered"]],
           inr tt)
      | inr false =>
          (trace_of run ++ [Print [FLit "Event did not match criteria"]], inr tt)
      end
  end.
Proof.
  unfold handle_camera_event_pubsub, try_except, bind, lift, raise, print,
    trace_of, outcome_of.
  destruct (decode_message ce) as [e|message] eqn:Hdec; simpl.
  { by rewrite (decode_message_raises ce e Hdec). }
  destruct (trigger_openhab_if_match _ _ _ _ _ _ w) as [t [e|[]]]; simpl;
    [destruct (is_Exception e)| |]; simpl; rewrite ?app_nil_r; done.
Qed.

Lemma outcome_false_no_posts message url item tok et ts w :
  outcome_of (trigger_openhab_if_match message url item tok et ts w) = inr false ->
  posts (trace_of (trigger_openhab_if_match message url item tok et ts w)) = [].
Proof.
  rewrite run_by_tests.
  destruct (py_get message "eventThreadState" JNull) as [e|v]; [done|].
  destruct (py_ne_str v ts); [done|].
  destruct (event_type_in_events message et) as [e|[]]; try done.
  rewrite run_try_block. simpl.
  destruct (requests_post w _) as [e|resp].
  - by destruct (is_RequestException e).
  - by destruct (_ && _).
Qed.

Lemma outcome_true_posts message url item tok et ts w :
  outcome_of (trigger_openhab_if_match message url item tok et ts w) = inr true ->
  posts (trace_of (trigger_openhab_if_match message url item tok et ts w)) =
  [item_request url item tok w].
Proof.
  intros Hout.
  destruct (posts_trigger_cases message url item tok et ts w) as [Hnil|Hone]; [|done].
  revert Hout Hnil. rewrite run_by_tests.
  destruct (py_get message "eventThreadState" JNull) as [e|v]; [done|].
  destruct (py_ne_str v ts); [done|].
  destruct (event_type_in_events message et) as [e|[]]; try done.
  rewrite run_try_block. simpl.
  destruct (requests_post w _) as [e|resp].
  - by destruct (is_RequestException e).
  - by destruct (_ && _).
Qed.

(** X12.  The handler swallows nothing and changes nothing: it raises
    exactly the exception that the decoding or the call raised, and
    returns [None] when neither raised. *)
Theorem handler_raises_what_was_raised `{Decoders} ce w :
  outcome_of (handle_camera_event_pubsub ce w) =
  match decode_message ce with
  | inl e => inl e
  | inr message =>
      match outcome_of (trigger_openhab_if_match message "https://openhab.local"
                          "CameraPersonDetected" (Some "") default_event_type
                          default_thread_state w) with
      | inl e => inl e
      | inr _ => inr tt
      end
  end.
Proof.
  rewrite run_handler.
  destruct (decode_message ce) as [e|message]; [done|].
  destruct (trigger_openhab_if_match _ _ _ _ _ _ w) as [t [e|[]]]; try done.
  unfold outcome_of. simpl. by destruct (is_Exception e).
Qed.

(** An exception that is not an [Exception] can only come out of
    [requests.post], and then nothing was printed. *)
Lemma base_exception_trace message url item tok et ts w e :
  outcome_of (trigger_openhab_if_match message url item tok et ts w) = inl e ->
  is_Exception e = false ->
  trace_of (trigger_openhab_if_match message url item tok et ts w) =
  [Post (item_request url item tok w)].
Proof.
  rewrite run_by_tests.
  destruct (py_get message "eventThreadState" JNull) as [e1|v] eqn:Hget.
  { intros [= <-]. by rewrite (py_get_exn _ _ _ _ Hget). }
  destruct (py_ne_str v ts); [done|].
  destruct (event_type_in_events message et) as [e2|[]] eqn:Hin.
  - intros [= <-]. by destruct (event_type_in_events_exn _ _ _ Hin) as [-> | ->].
  - rewrite run_try_block. simpl.
    destruct (requests_post w _) as [e3|resp].
    + destruct (is_RequestException e3) eqn:Hreq.
      * intros [= <-]. by destruct e3.
      * by intros [= <-].
    + destruct (_ && _); [|done]. by intros [= <-].
  - done.
Qed.

(** X13.  A run of the handler that returns, or that raises an
    [Exception], ends with one line of its own: the error line with the
    exception it raises; or, when it returns, the triggered line after a
    run that posted a request, or the no-match line after a run that posted
    nothing.  An exception that [except Exception] does not catch (a
    [KeyboardInterrupt] inside [requests.post]) gets no line: the POST is
    then the only effect of the run. *)
Theorem handler_ends_with_summary `{Decoders} ce w :
  match outcome_of (handle_camera_event_pubsub ce w) with
  | inl e =>
      if is_Exception e
      then exists t,
             trace_of (handle_camera_event_pubsub ce w) =
             t ++ [Print [FLit "Error processing Pub/Sub message: "; FExn e]]
      else exists req, trace_of (handle_camera_event_pubsub ce w) = [Post req]
  | inr _ =>
      exists t,
        (trace_of (handle_camera_event_pubsub ce w) =
         t ++ [Print [FLit "OpenHAB item "; FLit "CameraPersonDetected";
                      FLit " triggered"]]
         /\ posts t <> [])
        \/ (trace_of (handle_camera_event_pubsub ce w) =
            t ++ [Print [FLit "Event did not match criteria"]]
            /\ posts t = [])
  end.
Proof.
  rewrite run_handler.
  destruct (decode_message ce) as [e|message] eqn:Hdec.
  { unfold outcome_of, trace_of. simpl.
    rewrite (decode_message_raises ce e Hdec). by exists []. }
  pose proof (outcome_true_posts message "https://openhab.local" "CameraPersonDetected"
                (Some "") default_event_type default_thread_state w) as Htrue.
  pose proof (outcome_false_no_posts message "https://openhab.local"
                "CameraPersonDetected" (Some "") default_event_type
                default_thread_state w) as Hfalse.
  pose proof (base_exception_trace message "https://openhab.local"
                "CameraPersonDetected" (Some "") default_event_type
                default_thread_state w) as Hbase.
  destruct (trigger_openhab_if_match _ _ _ _ _ _ w) as [t [e|[]]];
    unfold trace_of, outcome_of in *; simpl in *.
  - destruct (is_Exception e) eqn:Hexc; simpl; rewrite Hexc.
    + by exists t.
    + eexists. exact (Hbase e eq_refl Hexc).
  - exists t. left. split; [done|]. by rewrite Htrue.
  - exists t. right. split; [done|]. by apply Hfalse.
Qed.

(** X14.  Nothing of the envelope reaches the request: whatever is
    delivered, the handler posts nothing or exactly one request, to
    [https://openhab.local/rest/items/CameraPersonDetected], with the four
    fixed headers, the clock reading as body and a timeout of 10. *)
Theorem handler_request_is_fixed `{Decoders} ce w :
  posts (trace_of (handle_camera_event_pubsub ce w)) = []
  \/ posts (trace_of (handle_camera_event_pubsub ce w)) =
     [mkRequest "https://openhab.local/rest/items/CameraPersonDetected"
        (isoformat (utc_now w))
        [("Content-Type", "text/plain");
         ("Accept", "application/json");
         ("CF-Access-Client-Id", "");
         ("CF-Access-Client-Secret", "")]
        10].
Proof.
  rewrite posts_handler.
  destruct (decode_message ce) as [e|message]; [by left|].
  destruct (posts_trigger_cases message "https://openhab.local" "CameraPersonDetected"
              (Some "") default_event_type default_thread_state w) as [-> | ->];
    [by left|by right].
Qed.

(** X15.  The handler matches on the built-in defaults: for a decoded
    message whose [events] is not a list or a string, it posts if and only
    if [eventThreadState] is [STARTED] and
    [sdm.devices.events.CameraPerson.Person] is a key of
    [resourceUpdate.events]. *)
Theorem handler_posts_iff_person_started `{Decoders} ce w message :
  decode_message ce = inr message ->
  events_is_sequence message = false ->
  posts (trace_of (handle_camera_event_pubsub ce w)) <> [] <->
  thread_state_is message "STARTED" = true
  /\ event_type_is_key message "sdm.devices.events.CameraPerson.Person" = true.
Proof.
  intros Hdec Hseq. rewrite posts_handler, Hdec, posts_nonempty_iff.
  apply and_iff_compat_l. split.
  - by apply in_events_true_is_key.
  - apply event_type_is_key_in_events.
Qed.

Lemma handler_posts_iff_person_started_witness :
  posts (trace_of (@handle_camera_event_pubsub one_payload_decoders
                     (pubsub_envelope person_event_b64) (world_answering 200 "OK"))) <> []
  <->
  thread_state_is person_event "STARTED" = true
  /\ event_type_is_key person_event "sdm.devices.events.CameraPerson.Person" = true.
Proof.
  apply (@handler_posts_iff_person_started one_payload_decoders).
  - vm_compute. reflexivity.
  - vm_compute. reflexivity.
Defined.



(** X17.  An envelope without the [message] key, or whose [message] has no
    [data] key, is a [KeyError] naming that key: the handler prints it and
    raises it, whatever the decoders are. *)
Theorem handler_missing_envelope_key `{Decoders} (d : gmap string json) w :
  (d !! "message" = None ->
   handle_camera_event_pubsub (mkCloudEvent (JObj d)) w =
   ([Print [FLit "Error processing Pub/Sub message: "; FExn (KeyError "message")]],
    inl (KeyError "message")))
  /\ (forall m, d !! "message" = Some (JObj m) -> m !! "data" = None ->
      handle_camera_event_pubsub (mkCloudEvent (JObj d)) w =
      ([Print [FLit "Error processing Pub/Sub message: "; FExn (KeyError "data")]],
       inl (KeyError "data"))).
Proof.
  split.
  - intros Hmsg. rewrite run_handler. unfold decode_message. simpl. by rewrite Hmsg.
  - intros m Hmsg Hdata. rewrite run_handler. unfold decode_message. simpl.
    rewrite Hmsg. simpl. by rewrite Hdata.
Qed.

Lemma handler_missing_envelope_key_witness :
  @handle_camera_event_pubsub one_payload_decoders (mkCloudEvent (JObj ∅))
    (world_answering 200 "OK") =
  ([Print [FLit "Error processing Pub/Sub message: "; FExn (KeyError "message")]],
   inl (KeyError "message"))
  /\ @handle_camera_event_pubsub one_payload_decoders
       (mkCloudEvent (JObj {[ "message" := JObj ∅ ]})) (world_answering 200 "OK") =
     ([Print [FLit "Error processing Pub/Sub message: "; FExn (KeyError "data")]],
      inl (KeyError "data")).
Proof.
  split.
  - apply (proj1 (@handler_missing_envelope_key one_payload_decoders ∅
                    (world_answering 200 "OK"))).
    reflexivity.
  - apply (proj2 (@handler_missing_envelope_key one_payload_decoders
                    {[ "message" := JObj ∅ ]} (world_answering 200 "OK")) ∅).
    + vm_compute. reflexivity.
    + reflexivity.
Defined.

(** X18.  A payload that decodes to valid JSON which is not an object (a
    list, a string, a number, [null]) fails at line 32: the handler prints
    and raises the [AttributeError] and posts nothing. *)
Theorem handler_non_object_payload `{Decoders} ce w message :
  decode_message ce = inr message ->
  is_mapping message = false ->
  handle_camera_event_pubsub ce w =
  ([Print [FLit "Error processing Pub/Sub message: "; FExn (AttributeError "get")]],
   inl (AttributeError "get")).
Proof.
  intros Hdec Hm. rewrite run_handler, Hdec. simpl.
  by rewrite (run_not_a_mapping _ _ _ _ _ _ _ Hm).
Qed.

Lemma handler_non_object_payload_witness :
  @handle_camera_event_pubsub empty_list_decoders (pubsub_envelope "W10=")
    (world_answering 200 "OK") =
  ([Print [FLit "Error processing Pub/Sub message: "; FExn (AttributeError "get")]],
   inl (AttributeError "get")).
Proof.
  apply (@handler_non_object_payload empty_list_decoders (pubsub_envelope "W10=")
           (world_answering 200 "OK") (JArr [])).
  - vm_compute. reflexivity.
  - reflexivity.
Defined.

(** X19.  An event that does not match is not an error for the handler:
    on a decoded mapping whose thread state is not [STARTED] it prints the
    mismatch, then its no-match line, posts nothing and returns. *)
Theorem handler_no_match_returns `{Decoders} ce w (d : gmap string json) :
  decode_message ce = inr (JObj d) ->
  thread_state_is (JObj d) "STARTED" = false ->
  handle_camera_event_pubsub ce w =
  ([Print [FLit "Thread state mismatch: ";
           FVal (match d !! "eventThreadState" with Some v => v | None => JNull end);
           FLit " != "; FLit "STARTED"];
    Print [FLit "Event did not match criteria"]],
   inr tt).
Proof.
  intros Hdec Hts. rewrite run_handler, Hdec. cbv zeta.
  by rewrite (run_mismatch_line d _ _ _ _ _ w Hts).
Qed.

Lemma handler_no_match_returns_witness :
  @handle_camera_event_pubsub ended_payload_decoders (pubsub_envelope ended_payload_b64)
    (world_answering 200 "OK") =
  ([Print [FLit "Thread state mismatch: "; FVal (JStr "ENDED"); FLit " != ";
           FLit "STARTED"];
    Print [FLit "Event did not match criteria"]],
   inr tt).
Proof.
  refine (eq_trans (@handler_no_match_returns ended_payload_decoders
                      (pubsub_envelope ended_payload_b64) (world_answering 200 "OK")
                      {[ "eventThreadState" := JStr "ENDED" ]} _ _) _).
  - vm_compute. reflexivity.
  - vm_compute. reflexivity.
  - vm_compute. reflexivity.
Defined.

(* ===================================================================== *)
(** ** The shape of the body *)
(* ===================================================================== *)

Lemma digit_char_is_digit (d : Z) : 0 <= d < 10 -> is_digit (digit_char d) = true.
Proof.
  intros Hd.
  assert (d = 0 \/ d = 1 \/ d = 2 \/ d = 3 \/ d = 4 \/ d = 5 \/ d = 6 \/ d = 7
          \/ d = 8 \/ d = 9) as Hcases by lia.
  repeat (destruct Hcases as [-> | Hcases]; [reflexivity|]).
  by subst d.
Qed.

Lemma zero_pad_digits (width : nat) (n : Z) : digits width (zero_pad width n).
Proof.
  split; [apply zero_pad_length|].
  induction width as [|width IH]; [done|].
  change (zero_pad (S width) n)
    with (String (digit_char ((n / 10 ^ Z.of_nat width) mod 10)) (zero_pad width n)).
  change (all_digits (String ?c ?s)) with (is_digit c && all_digits s).
  rewrite IH, digit_char_is_digit; [done|].
  apply Z.mod_pos_bound. lia.
Qed.

Lemma isoformat_iso8601 (t : datetime) : iso8601_utc (isoformat t).
Proof.
  exists (zero_pad 4 (year t)), (zero_pad 2 (month t)), (zero_pad 2 (day t)),
    (zero_pad 2 (hour t)), (zero_pad 2 (minute t)), (zero_pad 2 (second t)),
    (if Z.eqb (microsecond t) 0 then "" else "." +:+ zero_pad 6 (microsecond t)).
  split; [reflexivity|].
  repeat (split; [apply zero_pad_digits|]).
  destruct (Z.eqb (microsecond t) 0); [by left|].
  right. exists (zero_pad 6 (microsecond t)). split; [done|apply zero_pad_digits].
Qed.

(** X20.  Whatever the clock reads and whatever the message is, the body
    of every request a run posts has the form
    [YYYY-MM-DDTHH:MM:SS+00:00] or [YYYY-MM-DDTHH:MM:SS.ffffff+00:00], all
    of [Y M D H S f] decimal digits: a timestamp with the UTC offset. *)
Theorem posted_body_is_iso8601_utc message url item tok et ts w :
  Forall (fun req => iso8601_utc (req_data req))
    (posts (trace_of (trigger_openhab_if_match message url item tok et ts w))).
Proof.
  destruct (posts_trigger_cases message url item tok et ts w) as [-> | ->].
  - constructor.
  - constructor; [|constructor]. apply isoformat_iso8601.
Qed.

(** A [KeyboardInterrupt] raised inside [requests.post] is caught by
    neither [except]: no line is printed after the POST. *)
Example handler_keyboard_interrupt_unlogged :
  @handle_camera_event_pubsub one_payload_decoders (pubsub_envelope person_event_b64)
    (world_failing (BaseError "KeyboardInterrupt")) =
  ([Post (mkRequest "https://openhab.local/rest/items/CameraPersonDetected"
            "2024-01-15T10:30:45.123456+00:00" fixed_headers 10)],
   inl (BaseError "KeyboardInterrupt")).
Proof. vm_compute. reflexivity. Qed.
